(** * aminator.plugins.provisioner.yum: chroot set-up and tear-down

    A shallow embedding of [YumProvisionerPlugin] (provision,
    configure_chroot, teardown_chroot, __enter__, __exit__) and the
    properties of its mount / unmount life cycle.

    The plugin talks to the host through the helpers of
    [aminator.util.linux] (mounted, mount, unmount, busy_mount,
    lifo_mounts, ...), [os], [shutil] and [logging].  Those calls are
    embedded as operations on an explicit world [W]; every call the plugin
    makes is also recorded, in program order, in a trace of [event]s, so
    that statements such as "no unmount call is performed" are statements
    about that trace.

    [log.debug] records carry no control flow and are not mentioned by any
    property below: they are left out of the embedding.  Records at level
    warn, error and critical are kept with their rendered text. *)

From Stdlib Require Import String Ascii List Bool Arith Lia.
Import ListNotations.
Open Scope string_scope.
Open Scope list_scope.

Set Implicit Arguments.

(** ** Paths *)

Definition path := string.

Definition startswith_slash (s : string) : bool :=
  match s with
  | String c _ => Ascii.eqb c "/"
  | EmptyString => false
  end.

Fixpoint endswith_slash (s : string) : bool :=
  match s with
  | EmptyString => false
  | String c EmptyString => Ascii.eqb c "/"
  | String _ s' => endswith_slash s'
  end.

(** [str.lstrip('/')]: drop every leading slash. *)
Fixpoint lstrip_slash (s : string) : string :=
  match s with
  | String c s' => if Ascii.eqb c "/" then lstrip_slash s' else s
  | EmptyString => EmptyString
  end.

(** [os.path.join(a, b)] of posixpath, two components. *)
Definition path_join (a b : string) : string :=
  if startswith_slash b then b
  else if (String.eqb a "" || endswith_slash a)%bool then a ++ b
  else a ++ "/" ++ b.

(** ** Data model *)

(** [MountSpec(dev, fstype, mountpoint, options)], a namedtuple. *)
Record MountSpec := mkMountSpec {
  dev : string;
  fstype : string;
  mountpoint : path;
  options : string
}.

(** One entry of [config.chroot_mounts]: (dev, fstype, mountpoint, options). *)
Definition mountdef := (string * string * string * string)%type.

(** The outcome of an external command.  The type is declared in
    [aminator.util.linux]; the plugin reads [success] and the captured error
    text, which it spells [std_err], [stderr] and [result.std_err] at its
    three uses: one field stands for all three. *)
Record Result := mkResult {
  success : bool;
  std_out : string;
  std_err : string
}.

Inductive level := WARNING | ERROR | CRITICAL.

Inductive exn :=
| ProvisionException (msg : string)
| VolumeException (msg : string)
| UnboundLocalError (name : string).

(** Every call that leaves the plugin, with what it returned. *)
Inductive event :=
| EBusyMount (p : path) (r : Result)
| EMounted (p : path) (b : bool)
| EMount (ms : MountSpec) (r : Result)
| EUnmount (p : path) (r : Result)
| ELifoMounts (p : path) (l : list path)
| EIsFile (p : path) (b : bool)
| EExists (p : path) (b : bool)
| ECopy (src dst : path)
| ERemove (p : path)
| EChrootEnter (p : path)
| EChrootExit
| EShortCircuit (p : path) (ok : bool)
| ERewire (p : path) (ok : bool)
| EYumCleanMetadata (r : Result)
| EYumInstall (pkg : string) (r : Result)
| ELog (l : level) (msg : string).

Definition trace := list event.

(** A Python call either returns or raises. *)
Inductive outcome (A : Type) :=
| Ret (a : A)
| Raise (e : exn).
Arguments Ret {A} a.
Arguments Raise {A} e.

(** The plugin object: [self.mountpoint] (set by [__call__]), the plugin's
    configuration and [context.package.arg]. *)
Record Plugin := mkPlugin {
  self_mountpoint : path;
  chroot_mounts : list mountdef;
  short_circuit_sbin_service : bool;
  package_arg : string
}.

(** ** The host interface *)

(** The operations of [aminator.util.linux], [os] and [shutil] that the
    plugin calls, over a world [W].  Their code is not part of the sources at
    hand, so they are parameters of the embedding.  Queries read the world;
    commands may change it.  Each call is taken to return: a command reports
    its failure through its [Result] (or its boolean), as the plugin
    expects, and [shutil.copy] and [os.remove] are not taken to raise.
    [path_exists] is [os.path.exists]. *)
Class Linux (W : Type) := {
  busy_mount : path -> W -> Result;
  mounted : path -> W -> bool;
  mount : MountSpec -> W -> Result * W;
  unmount : path -> W -> Result * W;
  lifo_mounts : path -> W -> list path;
  isfile : path -> W -> bool;
  path_exists : path -> W -> bool;
  copy : path -> path -> W -> W;
  remove : path -> W -> W;
  chroot_enter : path -> W -> W;
  chroot_exit : W -> W;
  short_circuit : path -> W -> bool * W;
  rewire : path -> W -> bool * W;
  yum_clean_metadata : W -> Result * W;
  yum_install : string -> W -> Result * W
}.

(** Modelled from the spec: what [mounted], [mount], [unmount] and
    [lifo_mounts] of [aminator.util.linux] (not in the sources at hand) do
    to the mount table, after the spec's MountTable and Mounter.  The table
    is a set of paths; a successful mount adds exactly its target; a
    successful unmount removes exactly its target; a failed command and the
    file operations leave the table alone; the stray scan lists mounted
    paths only. *)
Class LinuxLaws (W : Type) (OS : Linux W) := {
  mounted_mount : forall ms w q,
    mounted q (snd (mount ms w)) =
    if success (fst (mount ms w))
    then (String.eqb q (mountpoint ms) || mounted q w)%bool
    else mounted q w;
  mounted_unmount : forall p w q,
    mounted q (snd (unmount p w)) =
    if success (fst (unmount p w))
    then (negb (String.eqb q p) && mounted q w)%bool
    else mounted q w;
  mounted_copy : forall s d w q, mounted q (copy s d w) = mounted q w;
  mounted_remove : forall p w q, mounted q (remove p w) = mounted q w;
  lifo_mounts_mounted : forall base w p,
    In p (lifo_mounts base w) -> mounted p w = true
}.

(** ** The effect monad: world passing, a trace, and exceptions *)

Section Embedding.

Context {W : Type} {OS : Linux W}.

Definition M (A : Type) := W -> outcome A * W * trace.

Definition ret {A} (a : A) : M A := fun w => (Ret a, w, []).

Definition bind {A B} (m : M A) (f : A -> M B) : M B :=
  fun w =>
    match m w with
    | (Ret a, w1, t1) =>
        match f a w1 with
        | (o, w2, t2) => (o, w2, t1 ++ t2)
        end
    | (Raise e, w1, t1) => (Raise e, w1, t1)
    end.

Definition raise {A} (e : exn) : M A := fun w => (Raise e, w, []).

(** [with cm: body]: the exit handler runs on both ways out of the body and
    a raised exception goes on afterwards (Chroot.__exit__ does not swallow
    it). *)
Definition with_ {A} (enter : M unit) (body : M A) (exit : M unit) : M A :=
  fun w =>
    match enter w with
    | (Raise e, w1, t1) => (Raise e, w1, t1)
    | (Ret _, w1, t1) =>
        match body w1 with
        | (o, w2, t2) =>
            match exit w2 with
            | (Ret _, w3, t3) => (o, w3, t1 ++ t2 ++ t3)
            | (Raise e, w3, t3) => (Raise e, w3, t1 ++ t2 ++ t3)
            end
        end
    end.

Notation "x <- c1 ;; c2" := (bind c1 (fun x => c2))
  (at level 61, c1 at next level, right associativity).
Notation "c1 ;; c2" := (bind c1 (fun _ => c2))
  (at level 61, right associativity).

(** A [for] loop whose body may [return] from the enclosing function.  [S]
    holds the local variables the loop assigns; [inl s] is "fell off the end
    of the loop with locals s", [inr b] is "the function returned b". *)
Fixpoint for_each {A S} (body : A -> S -> M (S + bool)) (l : list A) (s : S)
  : M (S + bool) :=
  match l with
  | [] => ret (inl s)
  | a :: l' =>
      r <- body a s ;;
      match r with
      | inl s' => for_each body l' s'
      | inr b => ret (inr b)
      end
  end.

(** Reading a local variable that no assignment has reached. *)
Definition local {A} (name : string) (v : option A) : M A :=
  match v with
  | Some a => ret a
  | None => raise (UnboundLocalError name)
  end.

(** *** The calls, each recorded in the trace *)

Definition log (l : level) (msg : string) : M unit :=
  fun w => (Ret tt, w, [ELog l msg]).

Definition call_busy_mount (p : path) : M Result :=
  fun w => let r := busy_mount p w in (Ret r, w, [EBusyMount p r]).

Definition call_mounted (p : path) : M bool :=
  fun w => let b := mounted p w in (Ret b, w, [EMounted p b]).

Definition call_mount (ms : MountSpec) : M Result :=
  fun w => let '(r, w') := mount ms w in (Ret r, w', [EMount ms r]).

Definition call_unmount (p : path) : M Result :=
  fun w => let '(r, w') := unmount p w in (Ret r, w', [EUnmount p r]).

Definition call_lifo_mounts (p : path) : M (list path) :=
  fun w => let l := lifo_mounts p w in (Ret l, w, [ELifoMounts p l]).

Definition call_isfile (p : path) : M bool :=
  fun w => let b := isfile p w in (Ret b, w, [EIsFile p b]).

Definition call_exists (p : path) : M bool :=
  fun w => let b := path_exists p w in (Ret b, w, [EExists p b]).

Definition call_copy (src dst : path) : M unit :=
  fun w => (Ret tt, copy src dst w, [ECopy src dst]).

Definition call_remove (p : path) : M unit :=
  fun w => (Ret tt, remove p w, [ERemove p]).

Definition call_chroot_enter (p : path) : M unit :=
  fun w => (Ret tt, chroot_enter p w, [EChrootEnter p]).

Definition call_chroot_exit : M unit :=
  fun w => (Ret tt, chroot_exit w, [EChrootExit]).

Definition call_short_circuit (p : path) : M bool :=
  fun w => let '(b, w') := short_circuit p w in (Ret b, w', [EShortCircuit p b]).

Definition call_rewire (p : path) : M bool :=
  fun w => let '(b, w') := rewire p w in (Ret b, w', [ERewire p b]).

Definition call_yum_clean_metadata : M Result :=
  fun w => let '(r, w') := yum_clean_metadata w in (Ret r, w', [EYumCleanMetadata r]).

Definition call_yum_install (pkg : string) : M Result :=
  fun w => let '(r, w') := yum_install pkg w in (Ret r, w', [EYumInstall pkg r]).

(** ** The plugin *)

Variable self : Plugin.

(** The [MountSpec] both loops build from a configured entry. *)
Definition mountspec_of (md : mountdef) : MountSpec :=
  let '(dev, fstype, mountpoint, options) := md in
  mkMountSpec dev fstype
    (path_join (self_mountpoint self) (lstrip_slash mountpoint)) options.

(** provision, lines 75-96. *)
Definition provision_body : M unit :=
  (if short_circuit_sbin_service self then
     ok <- call_short_circuit "/sbin/service" ;;
     if negb ok
     then raise (ProvisionException "Unable to short circuit /sbin/service")
     else ret tt
   else ret tt) ;;
  result <- call_yum_clean_metadata ;;
  if negb (success result) then
    raise (ProvisionException ("yum clean metadata failed: " ++ std_err result))
  else
  result <- call_yum_install (package_arg self) ;;
  if negb (success result) then
    raise (ProvisionException
             ("Installation of " ++ package_arg self ++ " failed: " ++ std_err result))
  else
  if short_circuit_sbin_service self then
    ok <- call_rewire "/sbin/service" ;;
    if negb ok
    then raise (ProvisionException "Unable to rewire /sbin/service")
    else ret tt
  else ret tt.

Definition provision : M unit :=
  with_ (call_chroot_enter (self_mountpoint self))
        provision_body
        call_chroot_exit.

(** configure_chroot, the loop of lines 110-118. *)
Definition configure_mount (md : mountdef) (_ : unit) : M (unit + bool) :=
  let mountspec := mountspec_of md in
  m <- call_mounted (mountpoint mountspec) ;;
  if negb m then
    result <- call_mount mountspec ;;
    if negb (success result) then
      log CRITICAL ("Unable to configure chroot: " ++ std_err result) ;;
      ret (inr false)
    else ret (inl tt)
  else ret (inl tt).

(** configure_chroot, lines 120-129. *)
Definition copy_resolv_conf : M bool :=
  f <- call_isfile "/etc/resolv.conf" ;;
  (if f then
     let src := "/etc/resolv.conf" in
     let dst := path_join (self_mountpoint self) "etc/" in
     call_copy src dst
   else
     log WARNING "unable to find a suitable resolv.conf to copy into the chroot env") ;;
  ret true.

Definition configure_chroot : M bool :=
  r <- for_each configure_mount (chroot_mounts self) tt ;;
  match r with
  | inr b => ret b
  | inl _ => copy_resolv_conf
  end.

(** teardown_chroot, the loop of lines 147-157.  The loop assigns the local
    [mountspec], which the function reads again after the loop. *)
Definition teardown_mount (md : mountdef) (_ : option MountSpec)
  : M (option MountSpec + bool) :=
  let mountspec := mountspec_of md in
  m <- call_mounted (mountpoint mountspec) ;;
  if negb m then
    log WARNING (mountpoint mountspec ++ " not mounted") ;;
    ret (inl (Some mountspec))
  else
    result <- call_unmount (mountpoint mountspec) ;;
    if negb (success result) then
      log ERROR ("Unable to unmount " ++ mountpoint mountspec ++ ": " ++ std_err result) ;;
      ret (inr false)
    else ret (inl (Some mountspec)).

(** teardown_chroot, the loop of lines 159-164.  [mountspec] is whatever the
    previous loop left in the local of that name. *)
Definition teardown_stray (mountspec : option MountSpec) (stray : path) (_ : unit)
  : M (unit + bool) :=
  result <- call_unmount stray ;;
  if negb (success result) then
    ms <- local "mountspec" mountspec ;;
    log ERROR ("Unable to unmount " ++ mountpoint ms ++ ": " ++ std_err result) ;;
    ret (inr false)
  else ret (inl tt).

Definition teardown_chroot : M bool :=
  busy <- call_busy_mount (self_mountpoint self) ;;
  if success busy then
    log ERROR ("Unable to tear down chroot at " ++ self_mountpoint self ++ ": device busy") ;;
    ret false
  else
  m <- call_mounted (self_mountpoint self) ;;
  if negb m then
    log WARNING (self_mountpoint self ++ " not mounted. Success?...") ;;
    ret true
  else
  let resolv := path_join (self_mountpoint self) "etc/resolv.conf" in
  e <- call_exists resolv ;;
  (if e then call_remove resolv else ret tt) ;;
  r <- for_each teardown_mount (rev (chroot_mounts self)) None ;;
  match r with
  | inr b => ret b
  | inl mountspec =>
      strays <- call_lifo_mounts (self_mountpoint self) ;;
      r' <- for_each (teardown_stray mountspec) strays tt ;;
      match r' with
      | inr b => ret b
      | inl _ => ret true
      end
  end.

(** __enter__ and __exit__, lines 167-175. *)
Definition __enter__ : M unit :=
  ok <- configure_chroot ;;
  if negb ok then raise (VolumeException "Error configuring chroot") else ret tt.

Definition __exit__ : M bool :=
  ok <- teardown_chroot ;;
  if negb ok then raise (VolumeException "Error tearing down chroot") else ret false.

End Embedding.

Arguments M W : clear implicits.

(** ** Reading a trace *)

Fixpoint select {A} (f : event -> option A) (t : trace) : list A :=
  match t with
  | [] => []
  | e :: t' =>
      match f e with
      | Some a => a :: select f t'
      | None => select f t'
      end
  end.

(** The [mounted] queries with their answers. *)
Definition visits : trace -> list (path * bool) :=
  select (fun e => match e with EMounted p b => Some (p, b) | _ => None end).

(** The [mount] calls with their results. *)
Definition mounts : trace -> list (MountSpec * Result) :=
  select (fun e => match e with EMount ms r => Some (ms, r) | _ => None end).

(** The [unmount] calls with their results. *)
Definition unmounts : trace -> list (path * Result) :=
  select (fun e => match e with EUnmount p r => Some (p, r) | _ => None end).

(** The stray scans, [lifo_mounts] calls. *)
Definition sweeps : trace -> list (path * list path) :=
  select (fun e => match e with ELifoMounts p l => Some (p, l) | _ => None end).

Definition copies : trace -> list (path * path) :=
  select (fun e => match e with ECopy s d => Some (s, d) | _ => None end).

Definition removals : trace -> list path :=
  select (fun e => match e with ERemove p => Some p | _ => None end).

Definition logs : trace -> list (level * string) :=
  select (fun e => match e with ELog l m => Some (l, m) | _ => None end).

Definition rewires : trace -> list (path * bool) :=
  select (fun e => match e with ERewire p b => Some (p, b) | _ => None end).

Definition mount_targets (t : trace) : list path :=
  map (fun c => mountpoint (fst c)) (mounts t).

Definition unmount_targets (t : trace) : list path := map fst (unmounts t).

(** The mountpoints of the configured list, in configuration order. *)
Definition targets (self : Plugin) : list path :=
  map (fun md => mountpoint (mountspec_of self md)) (chroot_mounts self).

Definition configured (self : Plugin) (p : path) : bool :=
  existsb (String.eqb p) (targets self).

Definition failed_mount (e : event) : Prop :=
  exists ms r, e = EMount ms r /\ success r = false.

Definition failed_unmount (e : event) : Prop :=
  exists p r, e = EUnmount p r /\ success r = false.

(** What the local [mountspec] of teardown_chroot holds once its first loop
    has run over [l], having held [s] before. *)
Definition last_mountspec (self : Plugin) (l : list mountdef) (s : option MountSpec)
  : option MountSpec :=
  fold_left (fun _ md => Some (mountspec_of self md)) l s.

(** The calls teardown_chroot makes before its first loop, when the base
    path is mounted and not busy. *)
Definition teardown_prologue {W} {OS : Linux W} (self : Plugin) (w : W) : trace :=
  let resolv := path_join (self_mountpoint self) "etc/resolv.conf" in
  [EBusyMount (self_mountpoint self) (busy_mount (self_mountpoint self) w);
   EMounted (self_mountpoint self) true;
   EExists resolv (path_exists resolv w)]
  ++ (if path_exists resolv w then [ERemove resolv] else []).

(** The world after that prologue. *)
Definition after_prologue {W} {OS : Linux W} (self : Plugin) (w : W) : W :=
  let resolv := path_join (self_mountpoint self) "etc/resolv.conf" in
  if path_exists resolv w then remove resolv w else w.

(** The world after the mount, unmount, copy and remove calls recorded in a
    trace, made in the order of the trace on the world [w]. *)
Fixpoint replay {W} {OS : Linux W} (t : trace) (w : W) : W :=
  match t with
  | [] => w
  | e :: t' =>
      replay t'
        match e with
        | EMount ms _ => snd (mount ms w)
        | EUnmount p _ => snd (unmount p w)
        | ECopy s d => copy s d w
        | ERemove p => remove p w
        | _ => w
        end
  end.

(** The mountpoints of the mount calls of a trace that succeeded. *)
Definition made_mounts (t : trace) : list path :=
  map (fun c => mountpoint (fst c)) (filter (fun c => success (snd c)) (mounts t)).

(** [p] is [base] joined with a relative path: [base], a separator unless
    [base] is empty or ends with one, and a path without a leading slash. *)
Definition inside (base p : path) : Prop :=
  exists rel, startswith_slash rel = false /\ p = path_join base rel.

(** ** A host to run the plugin on *)

Module Host.

(** Modelled from the spec: [aminator.util.linux] (mounted, mount, unmount,
    busy_mount, lifo_mounts, Chroot, short_circuit, rewire, yum_install,
    yum_clean_metadata) is not part of the sources at hand.  This host
    follows the spec's Mounter and MountTable: the mount table is the set of
    mounted paths in the order they were mounted; Mount fails when the
    filesystem type is rejected, the mountpoint does not exist or the path is
    mounted already; Unmount fails when the path is not mounted, is held open
    by a process, or still has a mount nested inside it; IsBusy reports an
    open reference at or under the base path; the stray scan lists the mounts
    nested under the base path, last mounted first. *)
Record World := mkWorld {
  mtab : list path;
  open_refs : list path;
  dirs : list path;
  files : list path;
  filesystems : list string;
  root : list path;
  scripts : list path;
  neutered : list path;
  yum_cache_ok : bool;
  installable : list string;
  installed : list string
}.

Definition mem (s : string) (l : list string) : bool := existsb (String.eqb s) l.

Definition del (s : string) (l : list string) : list string :=
  filter (fun x => negb (String.eqb x s)) l.

Definition as_dir (p : path) : path := if endswith_slash p then p else (p ++ "/")%string.

(** [p] lies strictly below [base]. *)
Definition nested (base p : path) : bool := String.prefix (as_dir base) p.

Definition under (base p : path) : bool := (String.eqb p base || nested base p)%bool.

Fixpoint has_slash (s : string) : bool :=
  match s with
  | EmptyString => false
  | String c s' => (Ascii.eqb c "/" || has_slash s')%bool
  end.

Fixpoint basename (s : string) : string :=
  match s with
  | EmptyString => EmptyString
  | String c s' =>
      if has_slash s' then basename s'
      else if Ascii.eqb c "/" then s' else s
  end.

Definition ok : Result := mkResult true "" "".
Definition failed (msg : string) : Result := mkResult false "" msg.

Definition set_mtab (l : list path) (w : World) : World :=
  mkWorld l (open_refs w) (dirs w) (files w) (filesystems w) (root w)
          (scripts w) (neutered w) (yum_cache_ok w) (installable w) (installed w).

Definition set_files (l : list path) (w : World) : World :=
  mkWorld (mtab w) (open_refs w) (dirs w) l (filesystems w) (root w)
          (scripts w) (neutered w) (yum_cache_ok w) (installable w) (installed w).

Definition set_root (l : list path) (w : World) : World :=
  mkWorld (mtab w) (open_refs w) (dirs w) (files w) (filesystems w) l
          (scripts w) (neutered w) (yum_cache_ok w) (installable w) (installed w).

Definition set_neutered (l : list path) (w : World) : World :=
  mkWorld (mtab w) (open_refs w) (dirs w) (files w) (filesystems w) (root w)
          (scripts w) l (yum_cache_ok w) (installable w) (installed w).

Definition set_installed (l : list string) (w : World) : World :=
  mkWorld (mtab w) (open_refs w) (dirs w) (files w) (filesystems w) (root w)
          (scripts w) (neutered w) (yum_cache_ok w) (installable w) l.

Definition host_mounted (p : path) (w : World) : bool := mem p (mtab w).

Definition host_busy_mount (base : path) (w : World) : Result :=
  if existsb (under base) (open_refs w) then ok
  else failed "".

Definition host_mount (ms : MountSpec) (w : World) : Result * World :=
  if negb (mem (fstype ms) (filesystems w)) then
    (failed ("mount: unknown filesystem type " ++ fstype ms), w)
  else if negb (mem (mountpoint ms) (dirs w)) then
    (failed ("mount: mount point " ++ mountpoint ms ++ " does not exist"), w)
  else if host_mounted (mountpoint ms) w then
    (failed ("mount: " ++ mountpoint ms ++ " is already mounted"), w)
  else (ok, set_mtab (mtab w ++ [mountpoint ms]) w).

Definition host_unmount (p : path) (w : World) : Result * World :=
  if negb (host_mounted p w) then
    (failed ("umount: " ++ p ++ ": not mounted"), w)
  else if (existsb (under p) (open_refs w) || existsb (nested p) (mtab w))%bool then
    (failed ("umount: " ++ p ++ ": device is busy"), w)
  else (ok, set_mtab (del p (mtab w)) w).

Definition host_lifo_mounts (base : path) (w : World) : list path :=
  rev (filter (nested base) (mtab w)).

Definition host_isfile (p : path) (w : World) : bool := mem p (files w).

Definition host_exists (p : path) (w : World) : bool :=
  (mem p (files w) || mem p (dirs w))%bool.

(** [shutil.copy(src, dst)]: into the directory [dst] under the name of
    [src], or onto the file [dst]. *)
Definition host_copy (src dst : path) (w : World) : World :=
  let target :=
    if endswith_slash dst then (dst ++ basename src)%string
    else if mem dst (dirs w) then (dst ++ "/" ++ basename src)%string
    else dst in
  set_files (target :: del target (files w)) w.

Definition host_remove (p : path) (w : World) : World :=
  set_files (del p (files w)) w.

Definition host_chroot_enter (p : path) (w : World) : World :=
  set_root (p :: root w) w.

Definition host_chroot_exit (w : World) : World := set_root (tl (root w)) w.

Definition host_short_circuit (p : path) (w : World) : bool * World :=
  if (mem p (scripts w) && negb (mem p (neutered w)))%bool
  then (true, set_neutered (p :: neutered w) w)
  else (false, w).

Definition host_rewire (p : path) (w : World) : bool * World :=
  if mem p (neutered w)
  then (true, set_neutered (del p (neutered w)) w)
  else (false, w).

Definition host_yum_clean_metadata (w : World) : Result * World :=
  if yum_cache_ok w then (ok, w) else (failed "yum: cannot clean metadata", w).

Definition host_yum_install (pkg : string) (w : World) : Result * World :=
  if mem pkg (installable w)
  then (ok, set_installed (pkg :: installed w) w)
  else (failed ("No package " ++ pkg ++ " available."), w).

#[global] Instance host : Linux World := {|
  busy_mount := host_busy_mount;
  mounted := host_mounted;
  mount := host_mount;
  unmount := host_unmount;
  lifo_mounts := host_lifo_mounts;
  isfile := host_isfile;
  path_exists := host_exists;
  copy := host_copy;
  remove := host_remove;
  chroot_enter := host_chroot_enter;
  chroot_exit := host_chroot_exit;
  short_circuit := host_short_circuit;
  rewire := host_rewire;
  yum_clean_metadata := host_yum_clean_metadata;
  yum_install := host_yum_install
|}.

(** A volume mounted at /mnt/vol with the usual directories in it. *)
Definition vol : path := "/mnt/vol".

Definition w0 : World := {|
  mtab := ["/mnt/vol"];
  open_refs := [];
  dirs := ["/mnt/vol"; "/mnt/vol/etc"; "/mnt/vol/proc"; "/mnt/vol/dev";
           "/mnt/vol/mnt"; "/mnt/vol/mnt/extra"];
  files := ["/etc/resolv.conf"];
  filesystems := ["proc"; "devtmpfs"; "sysfs"; "bind"];
  root := [];
  scripts := ["/sbin/service"];
  neutered := [];
  yum_cache_ok := true;
  installable := ["httpd"];
  installed := []
|}.

Definition proc_dev : list mountdef :=
  [("proc", "proc", "/proc", ""); ("devtmpfs", "devtmpfs", "/dev", "")].

Definition plugin (cfg : list mountdef) : Plugin :=
  mkPlugin vol cfg true "httpd".

Definition with_mtab (l : list path) (w : World) : World := set_mtab l w.

Definition with_open_refs (l : list path) (w : World) : World :=
  mkWorld (mtab w) l (dirs w) (files w) (filesystems w) (root w)
          (scripts w) (neutered w) (yum_cache_ok w) (installable w) (installed w).

Definition with_filesystems (l : list string) (w : World) : World :=
  mkWorld (mtab w) (open_refs w) (dirs w) (files w) l (root w)
          (scripts w) (neutered w) (yum_cache_ok w) (installable w) (installed w).

Definition with_installable (l : list string) (w : World) : World :=
  mkWorld (mtab w) (open_refs w) (dirs w) (files w) (filesystems w) (root w)
          (scripts w) (neutered w) (yum_cache_ok w) l (installed w).

(** The volume after a successful configure_chroot of [proc_dev]. *)
Definition w_entered : World :=
  set_files ["/mnt/vol/etc/resolv.conf"; "/etc/resolv.conf"]
    (with_mtab ["/mnt/vol"; "/mnt/vol/proc"; "/mnt/vol/dev"] w0).

(** A process still has a file open under the volume. *)
Definition w_busy : World := with_open_refs ["/mnt/vol/var/log/yum.log"] w_entered.

(** The volume itself is not mounted. *)
Definition w_unmounted : World := with_mtab [] w0.


(** The kernel of the host does not know devtmpfs. *)
Definition w_no_devtmpfs : World := with_filesystems ["proc"; "sysfs"] w0.

(** The host has no /etc/resolv.conf. *)
Definition w_no_resolv : World := set_files [] w0.

(** The provisioning body left binfmt_misc mounted inside the chroot's /proc. *)
Definition w_binfmt : World :=
  with_mtab ["/mnt/vol"; "/mnt/vol/proc"; "/mnt/vol/dev";
             "/mnt/vol/proc/sys/fs/binfmt_misc"] w_entered.

(** The provisioning body mounted /mnt/extra in the chroot and then a
    filesystem over /mnt: the scan meets /mnt first, which cannot be
    unmounted while /mnt/extra is mounted below it. *)
Definition w_strays : World :=
  with_mtab ["/mnt/vol"; "/mnt/vol/proc"; "/mnt/vol/dev";
             "/mnt/vol/mnt/extra"; "/mnt/vol/mnt"] w_entered.

(** The same strays on a volume with no configured mounts. *)
Definition w_strays_only : World :=
  with_mtab ["/mnt/vol"; "/mnt/vol/mnt/extra"; "/mnt/vol/mnt"] w0.

(** The package to install is not in any repository. *)
Definition w_no_package : World := with_installable [] w0.

End Host.

(** ** The rest of the plugin *)

(** __call__, lines 177-179: the plugin is pointed at a volume.  The
    assignment to [self.mountpoint] is a record update. *)
Definition __call__ (self : Plugin) (volume : path) : Plugin :=
  mkPlugin volume (chroot_mounts self) (short_circuit_sbin_service self)
           (package_arg self).

(** [short_circuit(filename, dst=...)] of [aminator.util.linux], called with
    its [dst] keyword as _short_circuit does. *)
Class ShortCircuitTo (W : Type) := {
  short_circuit_to : path -> path -> W -> bool * W
}.

Definition call_short_circuit_to {W} {SC : ShortCircuitTo W}
  (filename dst : path) : M W bool :=
  fun w => let '(b, w') := short_circuit_to filename dst w in
           (Ret b, w', [EShortCircuit filename b]).

(** One turn of the loop of _short_circuit, lines 102-104.  The message is
    the template itself: the source never calls [format] on it. *)
Definition short_circuit_file {W} {SC : ShortCircuitTo W}
  (dst : path) (filename : path) (_ : unit) : M W (unit + bool) :=
  bind (call_short_circuit_to filename dst)
       (fun ok => if negb ok
                  then raise (ProvisionException "Unable to short circuit {0} to {1}")
                  else ret (inl tt)).

(** _short_circuit, lines 98-104.  The two arguments are the values of the
    keys short_circuit_files and short_circuit_dst of the plugin's
    configuration, [None] for a missing key. *)
Definition _short_circuit {W} {SC : ShortCircuitTo W}
  (short_circuit_files : option (list path)) (short_circuit_dst : option path)
  : M W unit :=
  let files := match short_circuit_files with Some l => l | None => [] end in
  let dst := match short_circuit_dst with Some d => d | None => "/bin/true" end in
  bind (for_each (short_circuit_file dst) files tt) (fun _ => ret tt).

(** Modelled from the spec: [short_circuit] with a stand-in, on the host
    model.  ShortCircuit(path, dst) succeeds on a script that exists and is
    not short circuited yet, whatever the stand-in. *)
#[global] Instance host_short_circuit_to : ShortCircuitTo Host.World := {|
  short_circuit_to := fun p _ w => Host.host_short_circuit p w
|}.

(** Scenario B of the spec: the provisioning body left one more mount,
    /mnt/extra, inside the chroot. *)
Definition w_scenario_b : Host.World :=
  Host.with_mtab ["/mnt/vol"; "/mnt/vol/proc"; "/mnt/vol/dev"; "/mnt/vol/mnt/extra"]
    Host.w_entered.

Definition short_circuits : trace -> list (path * bool) :=
  select (fun e => match e with EShortCircuit p b => Some (p, b) | _ => None end).

Definition chroot_events : trace -> list event :=
  select (fun e => match e with
                   | EChrootEnter p => Some (EChrootEnter p)
                   | EChrootExit => Some EChrootExit
                   | _ => None
                   end).

Definition yum_cleans : trace -> list Result :=
  select (fun e => match e with EYumCleanMetadata r => Some r | _ => None end).

Definition yum_installs : trace -> list (string * Result) :=
  select (fun e => match e with EYumInstall p r => Some (p, r) | _ => None end).

(** * Properties *)

(** ** Lists and traces *)

Lemma select_app {A} (f : event -> option A) (t1 t2 : trace) :
  select f (t1 ++ t2) = select f t1 ++ select f t2.
Proof.
  induction t1 as [|e t1 IH]; simpl; [reflexivity|].
  destruct (f e); simpl; now rewrite IH.
Qed.

(** An element with property [P] sits at one place only in a list whose
    other elements do not have [P]. *)
Lemma split_unique {A} (P : A -> Prop) (t1 t1' t2 t2' : list A) (x x' : A) :
  t1 ++ x :: t2 = t1' ++ x' :: t2' ->
  P x -> Forall (fun y => ~ P y) t1' -> Forall (fun y => ~ P y) t2' ->
  t1 = t1' /\ x = x' /\ t2 = t2'.
Proof.
  revert t1'. induction t1 as [|a t1 IH]; intros [|a' t1'] E Px F1 F2; simpl in E.
  - inversion E; auto.
  - inversion E; subst. inversion F1; subst. contradiction.
  - inversion E; subst. exfalso.
    rewrite Forall_forall in F2. apply (F2 x); [apply in_elt | assumption].
  - inversion E; subst. inversion F1; subst.
    destruct (IH t1' H1 Px H3 F2) as (-> & -> & ->). auto.
Qed.

Ltac not_failed :=
  let H := fresh in
  intros H; destruct H as (? & ? & H & ?); try discriminate;
  inversion H; subst; congruence.

(** Where an element of a list split in two ways can be. *)
Lemma split_cases {A} (t1 t2 a b : list A) (x y : A) :
  t1 ++ x :: t2 = a ++ y :: b ->
  (exists c, a = t1 ++ x :: c) \/ (t1 = a /\ x = y /\ t2 = b) \/
  (exists c, t1 = a ++ y :: c).
Proof.
  intros E. apply app_eq_app in E. destruct E as (l & [(E1 & E2) | (E1 & E2)]).
  - destruct l as [|z l]; simpl in E2; inversion E2; subst.
    + right. left. rewrite app_nil_r. auto.
    + right. right. eauto.
  - destruct l as [|z l]; simpl in E2; inversion E2; subst.
    + right. left. rewrite app_nil_r. auto.
    + left. eauto.
Qed.

Lemma Forall_not_elt {A} (P : A -> Prop) (l1 l2 : list A) (x : A) :
  Forall (fun y => ~ P y) (l1 ++ x :: l2) -> P x -> False.
Proof.
  intros F Px. rewrite Forall_forall in F. apply (F x); [apply in_elt | exact Px].
Qed.

Lemma triple_eta {A B C} (x : A * B * C) : x = (fst (fst x), snd (fst x), snd x).
Proof. now destruct x as [[a b] c]. Qed.



(** ** Running the monad *)

Section Lifecycle.

Context {W : Type} {OS : Linux W}.
Variable self : Plugin.

Notation "'base'" := (self_mountpoint self).

Lemma for_each_nil {A S} (body : A -> S -> M W (S + bool)) s w :
  for_each body [] s w = (Ret (inl s), w, []).
Proof. reflexivity. Qed.

Lemma for_each_cons {A S} (body : A -> S -> M W (S + bool)) a l s w :
  for_each body (a :: l) s w =
  match body a s w with
  | (Ret (inl s'), w1, t1) =>
      match for_each body l s' w1 with
      | (o, w2, t2) => (o, w2, t1 ++ t2)
      end
  | (Ret (inr b), w1, t1) => (Ret (inr b), w1, t1)
  | (Raise e, w1, t1) => (Raise e, w1, t1)
  end.
Proof.
  simpl. unfold bind.
  destruct (body a s w) as [[[[s'|b]|e] w1] t1]; try reflexivity.
  unfold ret. now rewrite app_nil_r.
Qed.

(** One turn of the loop of configure_chroot. *)
Lemma configure_mount_run md u w :
  configure_mount self md u w =
  let ms := mountspec_of self md in
  if mounted (mountpoint ms) w
  then (Ret (inl tt), w, [EMounted (mountpoint ms) true])
  else
    if success (fst (mount ms w))
    then (Ret (inl tt), snd (mount ms w),
          [EMounted (mountpoint ms) false; EMount ms (fst (mount ms w))])
    else (Ret (inr false), snd (mount ms w),
          [EMounted (mountpoint ms) false; EMount ms (fst (mount ms w));
           ELog CRITICAL ("Unable to configure chroot: " ++ std_err (fst (mount ms w)))]).
Proof.
  unfold configure_mount, bind, call_mounted, call_mount, log, ret. simpl.
  destruct (mounted _ w); simpl; [reflexivity|].
  destruct (mount _ w) as [r w1]; simpl.
  destruct (success r); reflexivity.
Qed.

(** One turn of the first loop of teardown_chroot. *)
Lemma teardown_mount_run md s w :
  teardown_mount self md s w =
  let ms := mountspec_of self md in
  if mounted (mountpoint ms) w
  then
    if success (fst (unmount (mountpoint ms) w))
    then (Ret (inl (Some ms)), snd (unmount (mountpoint ms) w),
          [EMounted (mountpoint ms) true;
           EUnmount (mountpoint ms) (fst (unmount (mountpoint ms) w))])
    else (Ret (inr false), snd (unmount (mountpoint ms) w),
          [EMounted (mountpoint ms) true;
           EUnmount (mountpoint ms) (fst (unmount (mountpoint ms) w));
           ELog ERROR ("Unable to unmount " ++ mountpoint ms ++ ": "
                       ++ std_err (fst (unmount (mountpoint ms) w)))])
  else (Ret (inl (Some ms)), w,
        [EMounted (mountpoint ms) false;
         ELog WARNING (mountpoint ms ++ " not mounted")]).
Proof.
  unfold teardown_mount, bind, call_mounted, call_unmount, log, ret. simpl.
  destruct (mounted _ w); simpl; [|reflexivity].
  destruct (unmount _ w) as [r w1]; simpl.
  destruct (success r); reflexivity.
Qed.

(** One turn of the stray sweep. *)
Lemma teardown_stray_run mountspec p u w :
  teardown_stray mountspec p u w =
  let r := fst (unmount p w) in
  let w1 := snd (unmount p w) in
  if success r then (Ret (inl tt), w1, [EUnmount p r])
  else
    match mountspec with
    | Some ms =>
        (Ret (inr false), w1,
         [EUnmount p r;
          ELog ERROR ("Unable to unmount " ++ mountpoint ms ++ ": " ++ std_err r)])
    | None => (Raise (UnboundLocalError "mountspec"), w1, [EUnmount p r])
    end.
Proof.
  unfold teardown_stray, bind, call_unmount, log, ret, local, raise. simpl.
  destruct (unmount p w) as [r w1]; simpl.
  destruct (success r); simpl; [reflexivity|].
  destruct mountspec; reflexivity.
Qed.

Lemma teardown_chroot_run w :
  teardown_chroot self w =
  if success (busy_mount base w) then
    (Ret false, w,
     [EBusyMount base (busy_mount base w);
      ELog ERROR ("Unable to tear down chroot at " ++ base ++ ": device busy")])
  else if negb (mounted base w) then
    (Ret true, w,
     [EBusyMount base (busy_mount base w); EMounted base false;
      ELog WARNING (base ++ " not mounted. Success?...")])
  else
    match for_each (teardown_mount self) (rev (chroot_mounts self)) None
                   (after_prologue self w) with
    | (Raise e, w1, t1) => (Raise e, w1, teardown_prologue self w ++ t1)
    | (Ret (inr b), w1, t1) => (Ret b, w1, teardown_prologue self w ++ t1)
    | (Ret (inl mountspec), w1, t1) =>
        let strays := lifo_mounts base w1 in
        let t := fun t2 => teardown_prologue self w ++ t1
                           ++ ELifoMounts base strays :: t2 in
        match for_each (teardown_stray mountspec) strays tt w1 with
        | (Raise e, w2, t2) => (Raise e, w2, t t2)
        | (Ret (inr b), w2, t2) => (Ret b, w2, t t2)
        | (Ret (inl _), w2, t2) => (Ret true, w2, t t2)
        end
    end.
Proof.
  unfold teardown_chroot, teardown_prologue, after_prologue.
  unfold bind at 1. unfold call_busy_mount at 1. cbv zeta.
  destruct (success (busy_mount base w)); [reflexivity|].
  unfold bind at 1. unfold call_mounted at 1. cbv zeta.
  destruct (mounted base w); [|reflexivity]. cbv [negb].
  unfold bind at 1. unfold call_exists at 1. cbv zeta.
  set (resolv := path_join base "etc/resolv.conf").
  unfold bind at 1.
  assert (E : (if path_exists resolv w then call_remove resolv else ret tt) w =
              (Ret tt, (if path_exists resolv w then remove resolv w else w),
               if path_exists resolv w then [ERemove resolv] else [])).
  { destruct (path_exists resolv w); reflexivity. }
  rewrite E. clear E.
  unfold bind at 1.
  destruct (for_each _ _ None _) as [[[[ms|b]|e] w1] t1]; simpl.
  - unfold bind at 1. unfold call_lifo_mounts at 1. cbv zeta.
    unfold bind at 1.
    destruct (for_each _ _ tt w1) as [[[[u|b]|e] w2] t2]; simpl;
      rewrite ?app_nil_r; reflexivity.
  - rewrite ?app_nil_r. reflexivity.
  - reflexivity.
Qed.

(** The first loop of teardown_chroot: it scans nothing and removes nothing;
    it either falls through with no failed unmount, or returns False right
    after the first failed unmount and its error record. *)
Lemma teardown_loop_shape l : forall s w o w' t,
  for_each (teardown_mount self) l s w = (o, w', t) ->
  sweeps t = [] /\ removals t = [] /\
  ((o = Ret (inl (last_mountspec self l s)) /\
    Forall (fun e => ~ failed_unmount e) t)
   \/
   (o = Ret (inr false) /\
    exists t1 p r,
      t = t1 ++ [EUnmount p r;
                 ELog ERROR ("Unable to unmount " ++ p ++ ": " ++ std_err r)] /\
      success r = false /\
      Forall (fun e => ~ failed_unmount e) t1)).
Proof.
  induction l as [|md l IH]; intros s w o w' t H.
  - rewrite for_each_nil in H. inversion H; subst.
    repeat split; auto.
  - rewrite for_each_cons, teardown_mount_run in H. cbv zeta in H.
    destruct (mounted _ w).
    + destruct (success (fst (unmount _ w))) eqn:Es.
      * destruct (for_each _ l _ _) as [[o2 w2] t2] eqn:E2.
        inversion H; subst; clear H.
        apply IH in E2. destruct E2 as (Hs & Hr & Hc).
        split; [exact Hs|]. split; [exact Hr|].
        destruct Hc as [(-> & Hf) | (-> & t1 & p & r & -> & Hr' & Hf)].
        -- left. split; [reflexivity|].
           repeat (constructor; [not_failed|]). exact Hf.
        -- right. split; [reflexivity|].
           eexists (_ :: _ :: t1), p, r. split; [reflexivity|].
           split; [exact Hr'|].
           repeat (constructor; [not_failed|]). exact Hf.
      * inversion H; subst; clear H.
        repeat split; auto. right. split; [reflexivity|].
        eexists [_], _, _. split; [reflexivity|]. split; [exact Es|].
        repeat (constructor; [not_failed|]). constructor.
    + destruct (for_each _ l _ _) as [[o2 w2] t2] eqn:E2.
      inversion H; subst; clear H.
      apply IH in E2. destruct E2 as (Hs & Hr & Hc).
      split; [exact Hs|]. split; [exact Hr|].
      destruct Hc as [(-> & Hf) | (-> & t1 & p & r & -> & Hr' & Hf)].
      * left. split; [reflexivity|].
        repeat (constructor; [not_failed|]). exact Hf.
      * right. split; [reflexivity|].
        eexists (_ :: _ :: t1), p, r. split; [reflexivity|].
        split; [exact Hr'|].
        repeat (constructor; [not_failed|]). exact Hf.
Qed.

(** The stray sweep: it unmounts the scanned paths in the order of the scan
    and stops at the first failed unmount; what it does there depends on the
    local [mountspec] left by the first loop. *)
Lemma sweep_shape mountspec l : forall w o w' t,
  for_each (teardown_stray mountspec) l tt w = (o, w', t) ->
  sweeps t = [] /\ removals t = [] /\ mounts t = [] /\
  (exists rest, l = unmount_targets t ++ rest /\ (o = Ret (inl tt) -> rest = [])) /\
  ((o = Ret (inl tt) /\ Forall (fun e => ~ failed_unmount e) t)
   \/
   (exists t1 p r,
      success r = false /\ Forall (fun e => ~ failed_unmount e) t1 /\
      match mountspec with
      | Some ms =>
          o = Ret (inr false) /\
          t = t1 ++ [EUnmount p r;
                     ELog ERROR ("Unable to unmount " ++ mountpoint ms ++ ": "
                                 ++ std_err r)]
      | None =>
          o = Raise (UnboundLocalError "mountspec") /\
          t = t1 ++ [EUnmount p r]
      end)).
Proof.
  induction l as [|p l IH]; intros w o w' t H.
  - rewrite for_each_nil in H. inversion H; subst.
    repeat split; auto. exists []. auto.
  - rewrite for_each_cons, teardown_stray_run in H. cbv zeta in H.
    destruct (success (fst (unmount p w))) eqn:Es.
    + destruct (for_each _ l _ _) as [[o2 w2] t2] eqn:E2.
      inversion H; subst; clear H.
      apply IH in E2. destruct E2 as (Hs & Hr & Hm & (rest & Hl & Hrest) & Hc).
      split; [exact Hs|]. split; [exact Hr|]. split; [exact Hm|].
      split.
      { exists rest. split; [|exact Hrest]. unfold unmount_targets, unmounts in *.
        simpl. now rewrite Hl at 1. }
      destruct Hc as [(-> & Hf) | (t1 & q & r & Hr' & Hf & Hc)].
      * left. split; [reflexivity|]. constructor; [not_failed|exact Hf].
      * right. exists (EUnmount p (fst (unmount p w)) :: t1), q, r.
        split; [exact Hr'|]. split; [constructor; [not_failed|exact Hf]|].
        destruct mountspec; destruct Hc as (-> & ->); split; reflexivity.
    + destruct mountspec as [ms|]; inversion H; subst; clear H.
      * repeat split; auto.
        { exists l. split; [reflexivity|discriminate]. }
        right. exists [], p, (fst (unmount p w)). auto.
      * repeat split; auto.
        { exists l. split; [reflexivity|discriminate]. }
        right. exists [], p, (fst (unmount p w)). auto.
Qed.

(** C3.  When the busy check on the base path reports busy, teardown_chroot
    returns False at once: its trace is the busy check and the error record,
    so it makes no unmount call, leaves the world as it found it, and does
    not remove the resolver file. *)
Theorem teardown_busy_fails_untouched (w : W) :
  success (busy_mount base w) = true ->
  exists t,
    teardown_chroot self w = (Ret false, w, t) /\
    t = [EBusyMount base (busy_mount base w);
         ELog ERROR ("Unable to tear down chroot at " ++ base ++ ": device busy")] /\
    unmounts t = [] /\ removals t = [] /\ sweeps t = [] /\ visits t = [].
Proof.
  intros Hb. eexists. rewrite teardown_chroot_run, Hb.
  repeat split; reflexivity.
Qed.

(** C6.  On a base path that is neither busy nor mounted, teardown_chroot
    returns True having made no unmount call (and no other change). *)
Theorem teardown_unmounted_base_succeeds (w : W) :
  success (busy_mount base w) = false ->
  mounted base w = false ->
  exists t,
    teardown_chroot self w = (Ret true, w, t) /\
    unmounts t = [] /\ removals t = [] /\ sweeps t = [].
Proof.
  intros Hb Hm. eexists. rewrite teardown_chroot_run, Hb, Hm.
  repeat split; reflexivity.
Qed.

Lemma prologue_no_failed_unmount w :
  Forall (fun e => ~ failed_unmount e) (teardown_prologue self w).
Proof.
  unfold teardown_prologue. destruct (path_exists _ w); simpl;
    repeat (constructor; [not_failed|]); constructor.
Qed.

Lemma prologue_sweeps w : sweeps (teardown_prologue self w) = [].
Proof. unfold teardown_prologue. destruct (path_exists _ w); reflexivity. Qed.

Lemma prologue_unmounts w : unmounts (teardown_prologue self w) = [].
Proof. unfold teardown_prologue. destruct (path_exists _ w); reflexivity. Qed.

(** C4.  A failed unmount call in the first (configured, reverse-order) loop
    of teardown_chroot ends the call: teardown_chroot returns False, and the
    only thing it does after the failed call is to log the error; no other
    configured mountpoint is examined or unmounted and the stray sweep does
    not run. *)
Theorem teardown_stops_at_failed_unmount (w w' : W) o t t1 p r t2 :
  teardown_chroot self w = (o, w', t) ->
  t = t1 ++ EUnmount p r :: t2 ->
  success r = false ->
  sweeps t1 = [] ->
  o = Ret false /\
  t2 = [ELog ERROR ("Unable to unmount " ++ p ++ ": " ++ std_err r)] /\
  unmounts t2 = [] /\ visits t2 = [] /\ sweeps t = [].
Proof.
  intros H -> Hr Hs.
  assert (Hx : failed_unmount (EUnmount p r)) by (exists p, r; auto).
  rewrite teardown_chroot_run in H.
  destruct (success (busy_mount base w)).
  { inversion H as [[Ho Hw Ht]]. exfalso.
    destruct t1 as [|? [|? [|? ?]]]; simpl in Ht; inversion Ht. }
  destruct (mounted base w); cbv [negb] in H.
  2:{ inversion H as [[Ho Hw Ht]]. exfalso.
      destruct t1 as [|? [|? [|? [|? ?]]]]; simpl in Ht; inversion Ht. }
  destruct (for_each _ _ None _) as [[o1 w1] tl] eqn:E1.
  apply teardown_loop_shape in E1.
  destruct E1 as (Hs1 & _ & [(-> & Hf) | (-> & ta & q & rq & -> & Hrq & Hf)]).
  - (* the loop fell through: the failed call would sit behind the scan *)
    exfalso. cbv zeta in H.
    assert (Ht : exists ts,
               t1 ++ EUnmount p r :: t2 =
               (teardown_prologue self w ++ tl)
               ++ ELifoMounts base (lifo_mounts base w1) :: ts).
    { destruct (for_each _ _ tt w1) as [[[[u|b]|e] w2] ts];
        inversion H; subst; exists ts; now rewrite <- app_assoc. }
    destruct Ht as (ts & Ht).
    apply split_cases in Ht. destruct Ht as [(c & Hc) | [(_ & Hc & _) | (c & Hc)]].
    + assert (F : Forall (fun e => ~ failed_unmount e) (teardown_prologue self w ++ tl)).
      { apply Forall_app. split; [apply prologue_no_failed_unmount | exact Hf]. }
      rewrite Hc in F. eapply Forall_not_elt; [exact F | exact Hx].
    + discriminate.
    + rewrite Hc in Hs. unfold sweeps in Hs. rewrite select_app in Hs.
      apply app_eq_nil in Hs. destruct Hs as (_ & Hs). discriminate.
  - injection H as Ho Hw Ht.
    assert (Ht' : t1 ++ EUnmount p r :: t2 =
                  (teardown_prologue self w ++ ta) ++ EUnmount q rq ::
                  [ELog ERROR ("Unable to unmount " ++ q ++ ": " ++ std_err rq)]).
    { rewrite <- Ht, <- app_assoc. reflexivity. }
    apply (split_unique failed_unmount) in Ht'; auto.
    + destruct Ht' as (_ & Heq & Ht2). inversion Heq; subst q rq t2.
      split; [now symmetry|]. do 3 (split; [reflexivity|]).
      unfold sweeps in *. rewrite select_app, Hs. reflexivity.
    + apply Forall_app. split; [apply prologue_no_failed_unmount | exact Hf].
    + constructor; [not_failed|constructor].
Qed.

(** configure_chroot, as one equation. *)
Lemma configure_chroot_run w :
  configure_chroot self w =
  match for_each (configure_mount self) (chroot_mounts self) tt w with
  | (Raise e, w1, t1) => (Raise e, w1, t1)
  | (Ret (inr b), w1, t1) => (Ret b, w1, t1)
  | (Ret (inl _), w1, t1) =>
      if isfile "/etc/resolv.conf" w1
      then (Ret true, copy "/etc/resolv.conf" (path_join base "etc/") w1,
            t1 ++ [EIsFile "/etc/resolv.conf" true;
                   ECopy "/etc/resolv.conf" (path_join base "etc/")])
      else (Ret true, w1,
            t1 ++ [EIsFile "/etc/resolv.conf" false;
                   ELog WARNING
                     "unable to find a suitable resolv.conf to copy into the chroot env"])
  end.
Proof.
  unfold configure_chroot. unfold bind at 1.
  destruct (for_each _ _ tt w) as [[[[u|b]|e] w1] t1]; simpl.
  - unfold copy_resolv_conf, bind, call_isfile, call_copy, log, ret. simpl.
    destruct (isfile _ w1); reflexivity.
  - now rewrite app_nil_r.
  - reflexivity.
Qed.

(** The loop of configure_chroot over [l]: the mountpoints are examined in
    the order of [l]; mount is called for exactly those found not mounted;
    nothing is unmounted or copied; the loop falls through with no failed
    mount, or returns False right after the first failed mount and its
    record. *)
Lemma configure_loop_shape l : forall w o w' t,
  for_each (configure_mount self) l tt w = (o, w', t) ->
  map fst (visits t) =
    firstn (length (visits t)) (map (fun md => mountpoint (mountspec_of self md)) l) /\
  map fst (mounts t) =
    map fst (filter (fun c => negb (snd c))
               (combine (map (mountspec_of self) l) (map snd (visits t)))) /\
  unmounts t = [] /\ copies t = [] /\
  ((o = Ret (inl tt) /\ Forall (fun e => ~ failed_mount e) t /\
    length (visits t) = length l)
   \/
   (o = Ret (inr false) /\
    exists t1 ms r,
      t = t1 ++ [EMount ms r;
                 ELog CRITICAL ("Unable to configure chroot: " ++ std_err r)] /\
      success r = false /\ Forall (fun e => ~ failed_mount e) t1)).
Proof.
  induction l as [|md l IH]; intros w o w' t H.
  - rewrite for_each_nil in H. inversion H; subst. repeat split; auto.
  - rewrite for_each_cons, configure_mount_run in H. cbv zeta in H.
    destruct (mounted _ w).
    + destruct (for_each _ l _ _) as [[o2 w2] t2] eqn:E2.
      inversion H; subst; clear H.
      apply IH in E2. destruct E2 as (Hv & Hm & Hu & Hc & Hs).
      unfold visits, mounts, unmounts, copies in *. simpl.
      split; [now rewrite Hv at 1|]. split; [exact Hm|].
      split; [exact Hu|]. split; [exact Hc|].
      destruct Hs as [(-> & Hf & Hl) | (-> & t1 & ms & r & -> & Hr & Hf)].
      * left. split; [reflexivity|]. split; [|now rewrite Hl].
        constructor; [not_failed | exact Hf].
      * right. split; [reflexivity|].
        eexists (_ :: t1), ms, r. split; [reflexivity|]. split; [exact Hr|].
        constructor; [not_failed | exact Hf].
    + destruct (success (fst (mount _ w))) eqn:Es.
      * destruct (for_each _ l _ _) as [[o2 w2] t2] eqn:E2.
        inversion H; subst; clear H.
        apply IH in E2. destruct E2 as (Hv & Hm & Hu & Hc & Hs).
        unfold visits, mounts, unmounts, copies in *. simpl.
        split; [now rewrite Hv at 1|]. split; [now rewrite Hm|].
        split; [exact Hu|]. split; [exact Hc|].
        destruct Hs as [(-> & Hf & Hl) | (-> & t1 & ms & r & -> & Hr & Hf)].
        -- left. split; [reflexivity|]. split; [|now rewrite Hl].
           repeat (constructor; [not_failed|]). exact Hf.
        -- right. split; [reflexivity|].
           eexists (_ :: _ :: t1), ms, r. split; [reflexivity|]. split; [exact Hr|].
           repeat (constructor; [not_failed|]). exact Hf.
      * inversion H; subst; clear H.
        unfold visits, mounts, unmounts, copies. simpl.
        repeat split; auto.
        { destruct l; reflexivity. }
        right. split; [reflexivity|].
        eexists [_], _, _. split; [reflexivity|]. split; [exact Es|].
        repeat (constructor; [not_failed|]). constructor.
Qed.

(** The order of the calls of configure_chroot and what follows a failed
    mount call. *)
Lemma configure_chroot_order_facts (w w' : W) o t :
  configure_chroot self w = (o, w', t) ->
  map fst (visits t) = firstn (length (visits t)) (targets self) /\
  map fst (mounts t) =
    map fst (filter (fun c => negb (snd c))
               (combine (map (mountspec_of self) (chroot_mounts self))
                        (map snd (visits t)))) /\
  unmounts t = [] /\
  (forall t1 ms r t2,
      t = t1 ++ EMount ms r :: t2 -> success r = false ->
      o = Ret false /\
      t2 = [ELog CRITICAL ("Unable to configure chroot: " ++ std_err r)] /\
      copies t = [] /\
      Forall (fun e => ~ failed_mount e) t1) /\
  (Forall (fun c => success (snd c) = true) (mounts t) ->
   o = Ret true /\ length (visits t) = length (chroot_mounts self)).
Proof.
  intros H. rewrite configure_chroot_run in H.
  destruct (for_each _ _ tt w) as [[o1 w1] t1] eqn:E1.
  apply configure_loop_shape in E1.
  destruct E1 as (Hv & Hm & Hu & Hc &
                  [(-> & Hf & Hl) | (-> & ta & ms' & r' & -> & Hr' & Hf)]).
  - assert (Ht : exists e1 e2,
               o = Ret true /\ t = t1 ++ [e1; e2] /\
               visits [e1; e2] = [] /\ mounts [e1; e2] = [] /\
               unmounts [e1; e2] = [] /\
               Forall (fun e => ~ failed_mount e) [e1; e2]).
    { destruct (isfile _ w1); injection H as <- _ <-; do 2 eexists;
        repeat split; repeat (constructor; [not_failed|]); constructor. }
    clear H. destruct Ht as (e1 & e2 & -> & -> & Hv2 & Hm2 & Hu2 & Hf2).
    unfold visits, mounts, unmounts in *.
    rewrite !select_app, Hv2, Hm2, Hu2, !app_nil_r.
    split; [exact Hv|]. split; [exact Hm|]. split; [exact Hu|]. split.
    + intros tb ms r tc Ht Hr. exfalso.
      assert (F : Forall (fun e => ~ failed_mount e) (t1 ++ [e1; e2])).
      { apply Forall_app. auto. }
      rewrite Ht in F. eapply Forall_not_elt; [exact F|].
      exists ms, r. auto.
    + intros _. auto.
  - injection H as <- _ <-.
    split; [exact Hv|]. split; [exact Hm|]. split; [exact Hu|]. split.
    + intros tb ms r tc Ht Hr.
      assert (Ht' : tb ++ EMount ms r :: tc =
                    ta ++ EMount ms' r' ::
                    [ELog CRITICAL ("Unable to configure chroot: " ++ std_err r')]).
      { now rewrite <- Ht. }
      apply (split_unique failed_mount) in Ht'.
      * destruct Ht' as (-> & Heq & ->). inversion Heq; subst. auto.
      * exists ms, r. auto.
      * exact Hf.
      * constructor; [not_failed | constructor].
    + intros F. exfalso. unfold mounts in F. rewrite select_app in F.
      apply Forall_app in F. destruct F as (_ & F). simpl in F.
      inversion F; subst. simpl in *. congruence.
Qed.

Lemma replay_app (t1 t2 : trace) (w : W) :
  replay (t1 ++ t2) w = replay t2 (replay t1 w).
Proof.
  revert w. induction t1 as [|e t1 IH]; intros w; simpl; [reflexivity|].
  apply IH.
Qed.

(** The world the loop of configure_chroot hands on is the one its recorded
    calls produce. *)
Lemma configure_loop_world l : forall (w w' : W) o t,
  for_each (configure_mount self) l tt w = (o, w', t) -> w' = replay t w.
Proof.
  induction l as [|md l IH]; intros w w' o t H.
  - rewrite for_each_nil in H. now inversion H.
  - rewrite for_each_cons, configure_mount_run in H. cbv zeta in H.
    destruct (mounted _ w).
    + destruct (for_each _ l _ _) as [[o2 w2] t2] eqn:E2.
      inversion H; subst. simpl. exact (IH _ _ _ _ E2).
    + destruct (success (fst (mount _ w))).
      * destruct (for_each _ l _ _) as [[o2 w2] t2] eqn:E2.
        inversion H; subst. simpl. exact (IH _ _ _ _ E2).
      * inversion H; subst. reflexivity.
Qed.

Lemma configure_world (w w' : W) o t :
  configure_chroot self w = (o, w', t) -> w' = replay t w.
Proof.
  intros H. rewrite configure_chroot_run in H.
  destruct (for_each _ _ tt w) as [[o1 w1] t1] eqn:E1.
  apply configure_loop_world in E1. subst w1.
  destruct o1 as [[u|b]|e].
  - destruct (isfile _ (replay t1 w)); injection H as _ <- <-;
      rewrite replay_app; reflexivity.
  - now injection H as _ <- <-.
  - now injection H as _ <- <-.
Qed.

(** On a host that obeys the mount-table laws, the loop of configure_chroot
    leaves, on both ways out, the mount table it found plus the mountpoints
    of its successful mount calls. *)
Lemma configure_loop_made (Laws : LinuxLaws OS) l : forall (w w' : W) o t,
  for_each (configure_mount self) l tt w = (o, w', t) ->
  forall q, mounted q w' =
            (existsb (String.eqb q) (made_mounts t) || mounted q w)%bool.
Proof.
  induction l as [|md l IH]; intros w w' o t H q.
  - rewrite for_each_nil in H. inversion H; subst. reflexivity.
  - rewrite for_each_cons, configure_mount_run in H. cbv zeta in H.
    destruct (mounted _ w).
    + destruct (for_each _ l _ _) as [[o2 w2] t2] eqn:E2.
      inversion H; subst. exact (IH _ _ _ _ E2 q).
    + destruct (success (fst (mount (mountspec_of self md) w))) eqn:Es.
      * destruct (for_each _ l _ _) as [[o2 w2] t2] eqn:E2.
        inversion H; subst. rewrite (IH _ _ _ _ E2 q), mounted_mount, Es.
        unfold made_mounts, mounts. simpl. rewrite Es. simpl.
        destruct (String.eqb q (mountpoint (mountspec_of self md)));
          simpl; [now rewrite !orb_true_r | reflexivity].
      * inversion H; subst. rewrite mounted_mount, Es.
        unfold made_mounts, mounts. simpl. now rewrite Es.
Qed.

Lemma configure_made (Laws : LinuxLaws OS) (w w' : W) o t :
  configure_chroot self w = (o, w', t) ->
  forall q, mounted q w' =
            (existsb (String.eqb q) (made_mounts t) || mounted q w)%bool.
Proof.
  intros H q. rewrite configure_chroot_run in H.
  destruct (for_each _ _ tt w) as [[o1 w1] t1] eqn:E1.
  assert (Hq := configure_loop_made Laws _ _ E1 q).
  destruct o1 as [[u|b]|e].
  - assert (Ht : exists e1 e2,
               t = t1 ++ [e1; e2] /\ mounts [e1; e2] = [] /\
               mounted q w' = mounted q w1).
    { destruct (isfile _ w1); injection H as _ <- <-; do 2 eexists;
        (split; [reflexivity|]); (split; [reflexivity|]);
        [apply mounted_copy | reflexivity]. }
    destruct Ht as (e1 & e2 & -> & Hm & ->). rewrite Hq.
    unfold made_mounts, mounts in *. now rewrite select_app, Hm, app_nil_r.
  - injection H as _ <- <-. exact Hq.
  - injection H as _ <- <-. exact Hq.
Qed.

(** C2.  configure_chroot examines the configured mountpoints in
    configuration order; it calls mount for exactly the examined mountpoints
    that were found not mounted, and skips the others; it never unmounts.  A
    mount call that fails is the first failed one, configure_chroot returns
    False, and after the failed call it only logs the error: no further mount
    call, no look at the resolver file, no copy.  When no mount call fails it
    returns True having examined every configured mountpoint.  The world it
    hands back is the one its recorded calls produced, on failure the world
    right after the failed mount call with nothing undone; on a host that
    obeys the mount-table laws, the mount table is then the one it found
    plus the mountpoints of the mount calls that succeeded. *)
Theorem configure_chroot_in_order_until_failure (w w' : W) o t :
  configure_chroot self w = (o, w', t) ->
  map fst (visits t) = firstn (length (visits t)) (targets self) /\
  map fst (mounts t) =
    map fst (filter (fun c => negb (snd c))
               (combine (map (mountspec_of self) (chroot_mounts self))
                        (map snd (visits t)))) /\
  unmounts t = [] /\
  (forall t1 ms r t2,
      t = t1 ++ EMount ms r :: t2 -> success r = false ->
      o = Ret false /\
      t2 = [ELog CRITICAL ("Unable to configure chroot: " ++ std_err r)] /\
      copies t = [] /\
      Forall (fun e => ~ failed_mount e) t1) /\
  (Forall (fun c => success (snd c) = true) (mounts t) ->
   o = Ret true /\ length (visits t) = length (chroot_mounts self)) /\
  w' = replay t w /\
  (forall t1 ms r t2,
      t = t1 ++ EMount ms r :: t2 -> success r = false ->
      w' = snd (mount ms (replay t1 w))) /\
  (LinuxLaws OS ->
   forall q, mounted q w' =
             (existsb (String.eqb q) (made_mounts t) || mounted q w)%bool).
Proof.
  intros H.
  destruct (configure_chroot_order_facts _ H) as (Hv & Hm & Hu & Hfail & Hok).
  assert (Hw := configure_world _ H).
  split; [exact Hv|]. split; [exact Hm|]. split; [exact Hu|].
  split; [exact Hfail|]. split; [exact Hok|]. split; [exact Hw|]. split.
  - intros t1 ms r t2 Ht Hr. destruct (Hfail _ _ _ _ Ht Hr) as (_ & -> & _).
    rewrite Hw, Ht, replay_app. reflexivity.
  - intros Laws. exact (configure_made Laws _ H).
Qed.

Lemma configure_loop_quiet l : forall w w1 t1,
  for_each (configure_mount self) l tt w = (Ret (inl tt), w1, t1) ->
  logs t1 = [] /\ copies t1 = [].
Proof.
  induction l as [|md l IH]; intros w w1 t1 H.
  - rewrite for_each_nil in H. inversion H; subst. auto.
  - rewrite for_each_cons, configure_mount_run in H. cbv zeta in H.
    destruct (mounted _ w).
    + destruct (for_each _ l _ _) as [[o2 w2] t2] eqn:E2.
      inversion H; subst. exact (IH _ _ _ E2).
    + destruct (success (fst (mount _ w))).
      * destruct (for_each _ l _ _) as [[o2 w2] t2] eqn:E2.
        inversion H; subst. exact (IH _ _ _ E2).
      * discriminate.
Qed.

(** C8.  The resolver step of configure_chroot is best effort.  Once the
    mount loop is through, configure_chroot returns True whether or not
    /etc/resolv.conf is a file on the host: when it is, the file is copied
    into etc/ under the base path; when it is not, nothing is copied, the
    world stays as the mounts left it, and a warning is logged.  In
    teardown_chroot the removal is guarded by an existence test: when the
    injected file does not exist, teardown_chroot removes nothing. *)
Theorem resolver_step_best_effort (w w1 : W) t1 :
  for_each (configure_mount self) (chroot_mounts self) tt w = (Ret (inl tt), w1, t1) ->
  (isfile "/etc/resolv.conf" w1 = true ->
   exists t,
     configure_chroot self w =
       (Ret true, copy "/etc/resolv.conf" (path_join base "etc/") w1, t) /\
     copies t = [("/etc/resolv.conf", path_join base "etc/")] /\
     logs t = []) /\
  (isfile "/etc/resolv.conf" w1 = false ->
   exists t,
     configure_chroot self w = (Ret true, w1, t) /\
     copies t = [] /\
     logs t = [(WARNING,
                "unable to find a suitable resolv.conf to copy into the chroot env")]) /\
  (forall (v v' : W) o t,
      path_exists (path_join base "etc/resolv.conf") v = false ->
      teardown_chroot self v = (o, v', t) ->
      removals t = []).
Proof.
  intros H. destruct (configure_loop_quiet _ _ H) as (Hl & Hc).
  split; [|split].
  - intros Hf. eexists. rewrite configure_chroot_run, H, Hf.
    split; [reflexivity|].
    unfold copies, logs in *. rewrite !select_app, Hl, Hc. auto.
  - intros Hf. eexists. rewrite configure_chroot_run, H, Hf.
    split; [reflexivity|].
    unfold copies, logs in *. rewrite !select_app, Hl, Hc. auto.
  - intros v v' o t He Ht. rewrite teardown_chroot_run in Ht.
    assert (Hp : removals (teardown_prologue self v) = []).
    { unfold teardown_prologue. now rewrite He. }
    destruct (success (busy_mount base v)); [now inversion Ht|].
    destruct (mounted base v); cbv [negb] in Ht; [|now inversion Ht].
    destruct (for_each _ _ None _) as [[o1 v1] tl] eqn:E1.
    apply teardown_loop_shape in E1. destruct E1 as (_ & Hr1 & _).
    destruct o1 as [[ms|b]|e].
    + cbv zeta in Ht.
      destruct (for_each _ _ tt v1) as [[o2 v2] t2] eqn:E2.
      apply sweep_shape in E2. destruct E2 as (_ & Hr2 & _).
      assert (Ht' : t = teardown_prologue self v ++ tl ++
                        ELifoMounts base (lifo_mounts base v1) :: t2).
      { destruct o2 as [[u|b]|e]; now injection Ht as _ _ <-. }
      subst t. unfold removals in *. rewrite !select_app, Hp, Hr1. simpl.
      exact Hr2.
    + assert (Ht' : t = teardown_prologue self v ++ tl)
        by (now injection Ht as _ _ <-).
      subst t. unfold removals in *. rewrite select_app, Hp, Hr1. reflexivity.
    + assert (Ht' : t = teardown_prologue self v ++ tl)
        by (now injection Ht as _ _ <-).
      subst t. unfold removals in *. rewrite select_app, Hp, Hr1. reflexivity.
Qed.

Lemma sweep_unbound_logs l : forall w o w' t,
  for_each (teardown_stray None) l tt w = (o, w', t) -> logs t = [].
Proof.
  induction l as [|p l IH]; intros w o w' t H.
  - rewrite for_each_nil in H. now inversion H.
  - rewrite for_each_cons, teardown_stray_run in H. cbv zeta in H.
    destruct (success (fst (unmount p w))).
    + destruct (for_each _ l _ _) as [[o2 w2] t2] eqn:E2.
      inversion H; subst. simpl. exact (IH _ _ _ _ E2).
    + now inversion H.
Qed.

(** C10.  With an empty configured list, the first loop of teardown_chroot
    never assigns the local [mountspec]; when an unmount call of the stray
    sweep fails, the error branch reads that local and teardown_chroot raises
    UnboundLocalError instead of returning False: the failed call is the last
    thing it does, and no error record is logged. *)
Theorem teardown_empty_config_stray_failure_raises (w w' : W) o t :
  chroot_mounts self = [] ->
  teardown_chroot self w = (o, w', t) ->
  (exists p r, In (EUnmount p r) t /\ success r = false) ->
  o = Raise (UnboundLocalError "mountspec") /\
  (exists t1 p r, t = t1 ++ [EUnmount p r] /\ success r = false /\
                  Forall (fun e => ~ failed_unmount e) t1) /\
  logs t = [].
Proof.
  intros Hcfg H (p & r & Hin & Hr).
  assert (Hx : failed_unmount (EUnmount p r)) by (exists p, r; auto).
  rewrite teardown_chroot_run, Hcfg in H. simpl rev in H.
  destruct (success (busy_mount base w)).
  { injection H as _ _ Ht. subst t. simpl in Hin.
    destruct Hin as [Hin | [Hin | []]]; discriminate. }
  destruct (mounted base w); cbv [negb] in H.
  2:{ injection H as _ _ Ht. subst t. simpl in Hin.
      destruct Hin as [Hin | [Hin | [Hin | []]]]; discriminate. }
  rewrite for_each_nil in H. cbv zeta in H.
  destruct (for_each _ _ tt _) as [[o2 w2] t2] eqn:E2.
  assert (L := sweep_unbound_logs _ _ E2).
  apply sweep_shape in E2.
  destruct E2 as (_ & _ & _ & _ & [(-> & Hf) | (t1 & q & rq & Hrq & Hf & -> & Ht2)]).
  - exfalso. injection H as _ _ Ht. subst t.
    assert (F : Forall (fun e => ~ failed_unmount e)
                  (teardown_prologue self (W:=W) w ++ [] ++
                   ELifoMounts base (lifo_mounts base (after_prologue self w)) :: t2)).
    { apply Forall_app. split; [apply prologue_no_failed_unmount|].
      constructor; [not_failed | exact Hf]. }
    rewrite Forall_forall in F. exact (F _ Hin Hx).
  - injection H as Ho _ Ht. subst t o. split; [reflexivity|]. split.
    + exists (teardown_prologue self w ++
              ELifoMounts base (lifo_mounts base (after_prologue self w)) :: t1), q, rq.
      split; [subst t2; now rewrite <- app_assoc|]. split; [exact Hrq|].
      apply Forall_app. split; [apply prologue_no_failed_unmount|].
      constructor; [not_failed | exact Hf].
    + unfold logs in *. simpl. destruct (path_exists _ w); simpl; exact L.
Qed.

End Lifecycle.

(** ** The mount table across Enter and Exit *)

Section MountTable.

Context {W : Type} {OS : Linux W} {Laws : LinuxLaws OS}.
Variable self : Plugin.

Notation "'base'" := (self_mountpoint self).
Notation "'tgt'" := (fun md => mountpoint (mountspec_of self md)).

Lemma existsb_eqb_In (q : string) (l : list string) :
  existsb (String.eqb q) l = true <-> In q l.
Proof.
  rewrite existsb_exists. split.
  - intros (x & Hx & E). apply String.eqb_eq in E. now subst.
  - intros Hq. exists q. split; [exact Hq | apply String.eqb_refl].
Qed.

Lemma existsb_eqb_notin (q : string) (l : list string) :
  ~ In q l -> existsb (String.eqb q) l = false.
Proof.
  intros Hn. destruct (existsb (String.eqb q) l) eqn:E; [|reflexivity].
  apply existsb_eqb_In in E. contradiction.
Qed.



Lemma after_prologue_mounted (w : W) q :
  mounted q (after_prologue self w) = mounted q w.
Proof.
  unfold after_prologue. destruct (path_exists _ w); [apply mounted_remove | reflexivity].
Qed.


End MountTable.

(** ** The stray sweep *)

Section Sweep.

Context {W : Type} {OS : Linux W} {Laws : LinuxLaws OS}.
Variable self : Plugin.

Notation "'base'" := (self_mountpoint self).
Notation "'tgt'" := (fun md => mountpoint (mountspec_of self md)).

Lemma sweeps_nil_Forall (t : trace) :
  sweeps t = [] -> Forall (fun e => ~ exists b l, e = ELifoMounts b l) t.
Proof.
  induction t as [|e t IH]; intros H; constructor.
  - intros (b & l & ->). discriminate.
  - apply IH. destruct e; try exact H. discriminate.
Qed.

(** The first loop of teardown_chroot mounts nothing, and when it falls
    through none of the mountpoints of its list is mounted any more. *)
Lemma teardown_loop_unmounts_all l : forall s w s' w' t,
  for_each (teardown_mount self) l s w = (Ret (inl s'), w', t) ->
  (forall q, mounted q w' = true -> mounted q w = true) /\
  (forall p, In p (map tgt l) -> mounted p w' = false).
Proof.
  induction l as [|md l IH]; intros s w s' w' t H.
  - rewrite for_each_nil in H. inversion H; subst. split; [auto | intros p []].
  - rewrite for_each_cons, teardown_mount_run in H. cbv zeta in H.
    destruct (mounted (tgt md) w) eqn:Em.
    + destruct (success (fst (unmount (tgt md) w))) eqn:Es; [|discriminate].
      destruct (for_each _ l _ _) as [[o2 w2] t2] eqn:E2.
      inversion H; subst; clear H.
      assert (Hm : forall q, mounted q (snd (unmount (tgt md) w)) =
                             (negb (String.eqb q (tgt md)) && mounted q w)%bool).
      { intros q. rewrite mounted_unmount, Es. reflexivity. }
      apply IH in E2. destruct E2 as (Hmono & Hrest). split.
      * intros q Hq. apply Hmono in Hq. rewrite Hm in Hq.
        apply andb_prop in Hq. apply Hq.
      * intros p [<- | Hp]; [|now apply Hrest].
        destruct (mounted (tgt md) w') eqn:Ew; [|reflexivity].
        apply Hmono in Ew. rewrite Hm, String.eqb_refl in Ew. discriminate.
    + destruct (for_each _ l _ _) as [[o2 w2] t2] eqn:E2.
      inversion H; subst; clear H.
      apply IH in E2. destruct E2 as (Hmono & Hrest). split; [exact Hmono|].
      intros p [<- | Hp]; [|now apply Hrest].
      destruct (mounted (tgt md) w') eqn:Ew; [|reflexivity].
      apply Hmono in Ew. congruence.
Qed.

Lemma teardown_loop_visits l : forall s w s' w' t,
  for_each (teardown_mount self) l s w = (Ret (inl s'), w', t) ->
  map fst (visits t) = map tgt l.
Proof.
  induction l as [|md l IH]; intros s w s' w' t H.
  - rewrite for_each_nil in H. now inversion H.
  - rewrite for_each_cons, teardown_mount_run in H. cbv zeta in H.
    destruct (mounted (tgt md) w).
    + destruct (success (fst (unmount (tgt md) w))); [|discriminate].
      destruct (for_each _ l _ _) as [[o2 w2] t2] eqn:E2.
      inversion H; subst. unfold visits in *. simpl. f_equal. exact (IH _ _ _ _ _ E2).
    + destruct (for_each _ l _ _) as [[o2 w2] t2] eqn:E2.
      inversion H; subst. unfold visits in *. simpl. f_equal. exact (IH _ _ _ _ _ E2).
Qed.

(** X13.  What teardown_chroot does about stray mounts.  The scan is made of the
    base path, after every configured mountpoint was examined, in reverse
    configuration order, with no failed unmount; no configured mountpoint is
    in the scanned list; the sweep unmounts the scanned paths in the order
    of the scan, up to its first failure, all of them when teardown_chroot
    returns True; so it unmounts no configured mountpoint. *)
Lemma stray_sweep_after_configured (w w' : W) o t t1 b l t2 :
  teardown_chroot self w = (o, w', t) ->
  t = t1 ++ ELifoMounts b l :: t2 ->
  b = base /\
  Forall (fun e => ~ failed_unmount e) t1 /\
  map fst (visits t1) = base :: rev (targets self) /\
  (forall p, In p (targets self) -> ~ In p l) /\
  (exists rest, l = unmount_targets t2 ++ rest /\ (o = Ret true -> rest = [])) /\
  (forall p, In p (unmount_targets t2) -> configured self p = false).
Proof.
  intros H ->. rewrite teardown_chroot_run in H.
  destruct (success (busy_mount base w)).
  { injection H as _ _ Ht. exfalso.
    destruct t1 as [|? [|? [|? ?]]]; simpl in Ht; inversion Ht. }
  destruct (mounted base w); cbv [negb] in H.
  2:{ injection H as _ _ Ht. exfalso.
      destruct t1 as [|? [|? [|? [|? ?]]]]; simpl in Ht; inversion Ht. }
  destruct (for_each _ _ None _) as [[o1 w1] tl] eqn:E1.
  destruct (teardown_loop_shape _ _ _ _ E1)
    as (Hs1 & _ & [(-> & Hf) | (-> & _)]).
  2:{ exfalso.
      assert (Ht : t1 ++ ELifoMounts b l :: t2 = teardown_prologue self w ++ tl)
        by (now injection H as _ _ <-).
      apply (f_equal sweeps) in Ht. unfold sweeps in Ht at 1 2.
      rewrite !select_app in Ht. fold sweeps in Ht.
      rewrite prologue_sweeps, Hs1 in Ht. simpl in Ht.
      destruct (sweeps t1); discriminate. }
  assert (Hvis := teardown_loop_visits _ _ _ E1).
  apply teardown_loop_unmounts_all in E1. destruct E1 as (_ & Hgone).
  rewrite map_rev in Hvis, Hgone. fold (targets self) in Hvis, Hgone.
  cbv zeta in H.
  destruct (for_each _ _ tt w1) as [[o2 w2] ts] eqn:E2.
  apply sweep_shape in E2.
  destruct E2 as (Hs2 & _ & _ & (rest & Hl & Hrest) & Hcase).
  assert (Ht : t1 ++ ELifoMounts b l :: t2 =
               (teardown_prologue self w ++ tl)
               ++ ELifoMounts base (lifo_mounts base w1) :: ts).
  { rewrite <- app_assoc. destruct o2 as [[u|c]|e]; now injection H as _ _ <-. }
  apply (split_unique (fun e => exists b l, e = ELifoMounts b l)) in Ht.
  2:{ eauto. }
  2:{ apply sweeps_nil_Forall. unfold sweeps. rewrite select_app. fold sweeps.
      now rewrite prologue_sweeps, Hs1. }
  2:{ now apply sweeps_nil_Forall. }
  destruct Ht as (-> & Heq & ->). inversion Heq; subst b l. clear Heq.
  assert (Hstray : forall p, In p (lifo_mounts base w1) -> ~ In p (targets self)).
  { intros p Hp Hc. apply lifo_mounts_mounted in Hp.
    rewrite Hgone in Hp; [discriminate|]. now apply -> in_rev. }
  split; [reflexivity|]. split.
  { apply Forall_app. split; [apply prologue_no_failed_unmount | exact Hf]. }
  split.
  { assert (Hp : visits (teardown_prologue self w) = [(base, true)]).
    { unfold teardown_prologue. destruct (path_exists _ w); reflexivity. }
    unfold visits at 1. rewrite select_app. fold visits.
    rewrite Hp. simpl. now rewrite Hvis. }
  split.
  { intros p Hc Hp. exact (Hstray p Hp Hc). }
  split.
  { exists rest. split; [exact Hl|]. intros Ho. apply Hrest.
    destruct Hcase as [(-> & _) | (ta & q & r & _ & _ & Hms)]; [reflexivity|].
    exfalso. destruct (last_mountspec self _ None);
      destruct Hms as (-> & _); injection H as <- _ _; discriminate Ho. }
  intros p Hp. unfold configured.
  destruct (existsb (String.eqb p) (targets self)) eqn:Ex; [|reflexivity].
  exfalso. apply existsb_exists in Ex. destruct Ex as (x & Hx & Exp).
  apply String.eqb_eq in Exp. subst x.
  apply (Hstray p); [|exact Hx]. rewrite Hl. apply in_or_app. now left.
Qed.

End Sweep.

(** ** Two slips of the error paths *)

Section Slips.

Context {W : Type} {OS : Linux W}.
Variable self : Plugin.

Notation "'base'" := (self_mountpoint self).

Lemma last_mountspec_rev md l :
  last_mountspec self (rev (md :: l)) None = Some (mountspec_of self md).
Proof. unfold last_mountspec. simpl. now rewrite fold_left_app. Qed.

(** provision, when the installation fails after /sbin/service was short
    circuited: the exception leaves the body before the rewire call. *)
Lemma provision_failed_install_skips_rewire (w w2 w3 w4 : W) rc ri :
  short_circuit_sbin_service self = true ->
  short_circuit "/sbin/service" (chroot_enter base w) = (true, w2) ->
  yum_clean_metadata w2 = (rc, w3) ->
  success rc = true ->
  yum_install (package_arg self) w3 = (ri, w4) ->
  success ri = false ->
  exists t,
    provision self w =
    (Raise (ProvisionException
              ("Installation of " ++ package_arg self ++ " failed: " ++ std_err ri)),
     chroot_exit w4, t) /\
    rewires t = [].
Proof.
  intros Hsc Esc Ec Hclean Ei Hinst. eexists.
  unfold provision, with_, provision_body, call_chroot_enter, call_chroot_exit,
    bind, call_short_circuit, call_yum_clean_metadata, call_yum_install, raise, ret.
  rewrite Hsc, Esc. simpl. rewrite Ec, Hclean. simpl. rewrite Ei, Hinst. simpl.
  split; reflexivity.
Qed.

(** teardown_chroot, when an unmount call of the stray sweep fails and the
    configured list is not empty: the error record names the mountpoint of
    the first configured entry (the last one the first loop assigned to
    [mountspec]), whatever stray path [p] the failed call was made on. *)
Lemma stray_failure_names_first_configured md l (w w' : W) o t t1 p r t2 :
  chroot_mounts self = md :: l ->
  teardown_chroot self w = (o, w', t) ->
  t = t1 ++ EUnmount p r :: t2 ->
  success r = false ->
  sweeps t1 <> [] ->
  o = Ret false /\
  t2 = [ELog ERROR ("Unable to unmount " ++ mountpoint (mountspec_of self md)
                    ++ ": " ++ std_err r)].
Proof.
  intros Hcfg H -> Hr Hs.
  assert (Hx : failed_unmount (EUnmount p r)) by (exists p, r; auto).
  rewrite teardown_chroot_run in H.
  destruct (success (busy_mount base w)).
  { injection H as _ _ Ht. exfalso.
    destruct t1 as [|? [|? [|? ?]]]; simpl in Ht; inversion Ht. }
  destruct (mounted base w); cbv [negb] in H.
  2:{ injection H as _ _ Ht. exfalso.
      destruct t1 as [|? [|? [|? [|? ?]]]]; simpl in Ht; inversion Ht. }
  destruct (for_each _ _ None _) as [[o1 w1] tl] eqn:E1.
  apply teardown_loop_shape in E1.
  destruct E1 as (Hs1 & _ & [(-> & Hf) | (-> & _)]).
  2:{ exfalso. apply Hs.
      assert (Ht : t1 ++ EUnmount p r :: t2 = teardown_prologue self w ++ tl)
        by (now injection H as _ _ <-).
      apply (f_equal sweeps) in Ht. unfold sweeps in Ht at 1 2.
      rewrite !select_app in Ht. fold sweeps in Ht.
      rewrite prologue_sweeps, Hs1 in Ht. simpl in Ht.
      now apply app_eq_nil in Ht. }
  rewrite Hcfg, last_mountspec_rev in H. cbv zeta in H.
  destruct (for_each _ _ tt w1) as [[o2 w2] ts] eqn:E2.
  apply sweep_shape in E2.
  destruct E2 as (_ & _ & _ & _ &
                  [(-> & Hf2) | (ta & q & rq & Hrq & Hfa & -> & ->)]).
  - exfalso.
    assert (Ht : t1 ++ EUnmount p r :: t2 =
                 teardown_prologue self w ++ tl ++
                 ELifoMounts base (lifo_mounts base w1) :: ts)
      by (now injection H as _ _ <-).
    assert (F : Forall (fun e => ~ failed_unmount e) (t1 ++ EUnmount p r :: t2)).
    { rewrite Ht. apply Forall_app. split; [apply prologue_no_failed_unmount|].
      apply Forall_app. split; [exact Hf|]. constructor; [not_failed | exact Hf2]. }
    eapply Forall_not_elt; [exact F | exact Hx].
  - assert (Ht : o = Ret false /\
                 t1 ++ EUnmount p r :: t2 =
                 (teardown_prologue self w ++ tl ++
                  ELifoMounts base (lifo_mounts base w1) :: ta)
                 ++ EUnmount q rq ::
                 [ELog ERROR ("Unable to unmount " ++ mountpoint (mountspec_of self md)
                              ++ ": " ++ std_err rq)]).
    { injection H as <- _ <-. split; [reflexivity|].
      now rewrite <- !app_assoc. }
    destruct Ht as (-> & Ht). split; [reflexivity|].
    apply (split_unique failed_unmount) in Ht; auto.
    + destruct Ht as (_ & Heq & ->). now inversion Heq.
    + apply Forall_app. split; [apply prologue_no_failed_unmount|].
      apply Forall_app. split; [exact Hf|]. constructor; [not_failed | exact Hfa].
    + constructor; [not_failed | constructor].
Qed.

End Slips.

(** ** The host model obeys the mount-table laws *)

Lemma mem_app (q : string) (l1 l2 : list string) :
  Host.mem q (l1 ++ l2) = (Host.mem q l1 || Host.mem q l2)%bool.
Proof. unfold Host.mem. apply existsb_app. Qed.

Lemma mem_del (q p : string) (l : list string) :
  Host.mem q (Host.del p l) = (negb (String.eqb q p) && Host.mem q l)%bool.
Proof.
  unfold Host.mem, Host.del. induction l as [|a l IH]; simpl.
  - now rewrite andb_false_r.
  - destruct (String.eqb a p) eqn:Eap; simpl.
    + rewrite IH. apply String.eqb_eq in Eap. subst a.
      destruct (String.eqb q p); reflexivity.
    + rewrite IH. destruct (String.eqb q a) eqn:Eqa; simpl.
      * apply String.eqb_eq in Eqa. subst a. rewrite Eap. reflexivity.
      * reflexivity.
Qed.

Lemma mem_In (q : string) (l : list string) : In q l -> Host.mem q l = true.
Proof.
  intros H. unfold Host.mem. apply existsb_exists. exists q.
  split; [exact H | apply String.eqb_refl].
Qed.

#[global] Instance host_laws : LinuxLaws Host.host.
Proof.
  constructor; simpl.
  - intros ms w q. unfold Host.host_mount.
    destruct (negb (Host.mem (fstype ms) (Host.filesystems w))); [reflexivity|].
    destruct (negb (Host.mem (mountpoint ms) (Host.dirs w))); [reflexivity|].
    destruct (Host.host_mounted (mountpoint ms) w); [reflexivity|].
    simpl. unfold Host.host_mounted. simpl. rewrite mem_app. simpl.
    rewrite orb_false_r. apply orb_comm.
  - intros p w q. unfold Host.host_unmount.
    destruct (negb (Host.host_mounted p w)); [reflexivity|].
    destruct (existsb (Host.under p) (Host.open_refs w)
              || existsb (Host.nested p) (Host.mtab w))%bool; [reflexivity|].
    simpl. unfold Host.host_mounted. simpl. apply mem_del.
  - reflexivity.
  - reflexivity.
  - intros b w p H. unfold Host.host_lifo_mounts in H.
    apply in_rev in H. apply filter_In in H. apply mem_In. apply H.
Qed.

(** ** The properties at work on the host model *)

(** The laws are not vacuous and the busy guard can fire: a process holds a
    file open under /mnt/vol. *)
Lemma teardown_busy_witness :
  success (busy_mount Host.vol Host.w_busy) = true /\
  teardown_chroot (Host.plugin Host.proc_dev) Host.w_busy =
  (Ret false, Host.w_busy,
   [EBusyMount "/mnt/vol" Host.ok;
    ELog ERROR "Unable to tear down chroot at /mnt/vol: device busy"]).
Proof.
  assert (Hb : success (busy_mount (self_mountpoint (Host.plugin Host.proc_dev))
                                   Host.w_busy) = true) by reflexivity.
  split; [exact Hb|].
  destruct (teardown_busy_fails_untouched (Host.plugin Host.proc_dev) Host.w_busy Hb)
    as (t & E & Ht & _).
  rewrite E, Ht. reflexivity.
Defined.

Lemma teardown_unmounted_base_witness :
  success (busy_mount Host.vol Host.w_unmounted) = false /\
  mounted Host.vol Host.w_unmounted = false /\
  fst (teardown_chroot (Host.plugin Host.proc_dev) Host.w_unmounted) =
  (Ret true, Host.w_unmounted) /\
  unmounts (snd (teardown_chroot (Host.plugin Host.proc_dev) Host.w_unmounted)) = [].
Proof.
  assert (Hb : success (busy_mount (self_mountpoint (Host.plugin Host.proc_dev))
                                   Host.w_unmounted) = false) by reflexivity.
  assert (Hm : mounted (self_mountpoint (Host.plugin Host.proc_dev))
                       Host.w_unmounted = false) by reflexivity.
  split; [exact Hb|]. split; [exact Hm|].
  destruct (teardown_unmounted_base_succeeds (Host.plugin Host.proc_dev)
              Host.w_unmounted Hb Hm) as (t & E & Hu & _).
  rewrite E. split; [reflexivity | exact Hu].
Defined.

(** binfmt_misc is still mounted inside the chroot's /proc: /dev is
    unmounted, the unmount of /proc fails, and teardown_chroot stops. *)
Lemma teardown_stops_at_failed_unmount_witness :
  fst (fst (teardown_chroot (Host.plugin Host.proc_dev) Host.w_binfmt)) = Ret false /\
  unmount_targets (snd (teardown_chroot (Host.plugin Host.proc_dev) Host.w_binfmt)) =
  ["/mnt/vol/dev"; "/mnt/vol/proc"] /\
  sweeps (snd (teardown_chroot (Host.plugin Host.proc_dev) Host.w_binfmt)) = [].
Proof.
  assert (E : teardown_chroot (Host.plugin Host.proc_dev) Host.w_binfmt =
              (fst (fst (teardown_chroot (Host.plugin Host.proc_dev) Host.w_binfmt)),
               snd (fst (teardown_chroot (Host.plugin Host.proc_dev) Host.w_binfmt)),
               snd (teardown_chroot (Host.plugin Host.proc_dev) Host.w_binfmt)))
    by reflexivity.
  assert (Ht : snd (teardown_chroot (Host.plugin Host.proc_dev) Host.w_binfmt) =
               [EBusyMount "/mnt/vol" (Host.failed "");
                EMounted "/mnt/vol" true;
                EExists "/mnt/vol/etc/resolv.conf" true;
                ERemove "/mnt/vol/etc/resolv.conf";
                EMounted "/mnt/vol/dev" true;
                EUnmount "/mnt/vol/dev" Host.ok;
                EMounted "/mnt/vol/proc" true]
               ++ EUnmount "/mnt/vol/proc"
                    (Host.failed "umount: /mnt/vol/proc: device is busy")
               :: [ELog ERROR
                     "Unable to unmount /mnt/vol/proc: umount: /mnt/vol/proc: device is busy"])
    by reflexivity.
  pose proof (@teardown_stops_at_failed_unmount _ _
                 (Host.plugin Host.proc_dev) Host.w_binfmt _ _ _
                 [EBusyMount "/mnt/vol" (Host.failed "");
                  EMounted "/mnt/vol" true;
                  EExists "/mnt/vol/etc/resolv.conf" true;
                  ERemove "/mnt/vol/etc/resolv.conf";
                  EMounted "/mnt/vol/dev" true;
                  EUnmount "/mnt/vol/dev" Host.ok;
                  EMounted "/mnt/vol/proc" true]
                 "/mnt/vol/proc"
                 (Host.failed "umount: /mnt/vol/proc: device is busy")
                 [ELog ERROR
                    "Unable to unmount /mnt/vol/proc: umount: /mnt/vol/proc: device is busy"]
                 E Ht eq_refl eq_refl) as H.
  destruct H as (Ho & _ & _ & _ & Hs).
  split; [exact Ho|]. split; [reflexivity | exact Hs].
Defined.

(** The kernel rejects devtmpfs: /proc is mounted, the mount of /dev fails,
    configure_chroot returns False, copies nothing and undoes nothing: /proc
    of the chroot is still in the mount table of the world handed back. *)
Lemma configure_chroot_in_order_witness :
  fst (fst (configure_chroot (Host.plugin Host.proc_dev) Host.w_no_devtmpfs)) = Ret false /\
  mount_targets (snd (configure_chroot (Host.plugin Host.proc_dev) Host.w_no_devtmpfs)) =
  ["/mnt/vol/proc"; "/mnt/vol/dev"] /\
  copies (snd (configure_chroot (Host.plugin Host.proc_dev) Host.w_no_devtmpfs)) = [] /\
  unmounts (snd (configure_chroot (Host.plugin Host.proc_dev) Host.w_no_devtmpfs)) = [] /\
  Host.mtab (snd (fst (configure_chroot (Host.plugin Host.proc_dev) Host.w_no_devtmpfs))) =
  ["/mnt/vol"; "/mnt/vol/proc"] /\
  mounted "/mnt/vol/proc"
    (snd (fst (configure_chroot (Host.plugin Host.proc_dev) Host.w_no_devtmpfs))) = true /\
  mounted "/mnt/vol/dev"
    (snd (fst (configure_chroot (Host.plugin Host.proc_dev) Host.w_no_devtmpfs))) = false.
Proof.
  destruct (configure_chroot_in_order_until_failure
              (Host.plugin Host.proc_dev) Host.w_no_devtmpfs (triple_eta _))
    as (_ & _ & Hu & Hfail & _ & _ & Hworld & Htable).
  assert (Ht : snd (configure_chroot (Host.plugin Host.proc_dev) Host.w_no_devtmpfs) =
               [EMounted "/mnt/vol/proc" false;
                EMount (mkMountSpec "proc" "proc" "/mnt/vol/proc" "") Host.ok;
                EMounted "/mnt/vol/dev" false]
               ++ EMount (mkMountSpec "devtmpfs" "devtmpfs" "/mnt/vol/dev" "")
                    (Host.failed "mount: unknown filesystem type devtmpfs")
               :: [ELog CRITICAL
                     "Unable to configure chroot: mount: unknown filesystem type devtmpfs"])
    by reflexivity.
  destruct (Hfail _ _ _ _ Ht eq_refl) as (Ho & _ & Hc & _).
  split; [exact Ho|]. split; [reflexivity|]. split; [exact Hc|].
  split; [exact Hu|]. split.
  - rewrite (Hworld _ _ _ _ Ht eq_refl). reflexivity.
  - split; rewrite (Htable host_laws); reflexivity.
Defined.

(** A host without /etc/resolv.conf: configure_chroot succeeds and copies
    nothing; teardown_chroot on the untouched volume removes nothing. *)
Lemma resolver_step_witness :
  fst (fst (configure_chroot (Host.plugin Host.proc_dev) Host.w_no_resolv)) = Ret true /\
  copies (snd (configure_chroot (Host.plugin Host.proc_dev) Host.w_no_resolv)) = [] /\
  copies (snd (configure_chroot (Host.plugin Host.proc_dev) Host.w0)) =
  [("/etc/resolv.conf", "/mnt/vol/etc/")] /\
  removals (snd (teardown_chroot (Host.plugin Host.proc_dev) Host.w0)) = [].
Proof.
  assert (E : for_each (configure_mount (Host.plugin Host.proc_dev))
                (chroot_mounts (Host.plugin Host.proc_dev)) tt Host.w_no_resolv =
              (Ret (inl tt),
               Host.with_mtab ["/mnt/vol"; "/mnt/vol/proc"; "/mnt/vol/dev"]
                 Host.w_no_resolv,
               snd (for_each (configure_mount (Host.plugin Host.proc_dev))
                      (chroot_mounts (Host.plugin Host.proc_dev)) tt Host.w_no_resolv)))
    by reflexivity.
  destruct (resolver_step_best_effort (Host.plugin Host.proc_dev) Host.w_no_resolv E)
    as (_ & Habsent & Hremove).
  destruct Habsent as (t & Ec & Hc & _); [reflexivity|].
  rewrite Ec. split; [reflexivity|]. split; [exact Hc|]. split; [reflexivity|].
  apply (Hremove Host.w0 _ _ _ eq_refl (triple_eta _)).
Defined.

(** No configured mounts, and a stray mount that cannot be unmounted:
    teardown_chroot raises instead of returning False. *)
Lemma teardown_empty_config_witness :
  fst (fst (teardown_chroot (Host.plugin []) Host.w_strays_only)) =
  Raise (UnboundLocalError "mountspec") /\
  logs (snd (teardown_chroot (Host.plugin []) Host.w_strays_only)) = [].
Proof.
  assert (Hin : exists p r,
             In (EUnmount p r) (snd (teardown_chroot (Host.plugin []) Host.w_strays_only))
             /\ success r = false).
  { exists "/mnt/vol/mnt", (Host.failed "umount: /mnt/vol/mnt: device is busy").
    split; [|reflexivity]. do 4 right. left. reflexivity. }
  destruct (teardown_empty_config_stray_failure_raises
              (Host.plugin []) Host.w_strays_only eq_refl (triple_eta _) Hin)
    as (Ho & _ & Hl).
  split; [exact Ho | exact Hl].
Defined.



(** C5 on the code.  With no configured mounts, a stray mount that cannot be
    unmounted does not make teardown_chroot return False: the error branch
    of the sweep reads the unassigned local [mountspec] (line 163) and the
    call ends in UnboundLocalError, with nothing logged. *)
Theorem stray_sweep_failure_escapes_as_unbound_local :
  teardown_chroot (Host.plugin []) Host.w_strays_only =
  (Raise (UnboundLocalError "mountspec"), Host.w_strays_only,
   [EBusyMount "/mnt/vol" (Host.failed "");
    EMounted "/mnt/vol" true;
    EExists "/mnt/vol/etc/resolv.conf" false;
    ELifoMounts "/mnt/vol" ["/mnt/vol/mnt"; "/mnt/vol/mnt/extra"];
    EUnmount "/mnt/vol/mnt" (Host.failed "umount: /mnt/vol/mnt: device is busy")]).
Proof. reflexivity. Qed.

(** C7 on the code.  /sbin/service is short circuited, the installation of
    the package fails, and provision raises ProvisionException from inside
    the chroot block: the chroot is left, rewire is never called, and
    /sbin/service stays short circuited in the image. *)
Theorem failed_install_leaves_service_short_circuited :
  fst (fst (provision (Host.plugin Host.proc_dev) Host.w_no_package)) =
  Raise (ProvisionException
           "Installation of httpd failed: No package httpd available.") /\
  snd (provision (Host.plugin Host.proc_dev) Host.w_no_package) =
  [EChrootEnter "/mnt/vol";
   EShortCircuit "/sbin/service" true;
   EYumCleanMetadata Host.ok;
   EYumInstall "httpd" (Host.failed "No package httpd available.");
   EChrootExit] /\
  rewires (snd (provision (Host.plugin Host.proc_dev) Host.w_no_package)) = [] /\
  Host.neutered (snd (fst (provision (Host.plugin Host.proc_dev) Host.w_no_package))) =
  ["/sbin/service"].
Proof. repeat split; reflexivity. Qed.

(** C9 on the code.  The configured mounts /dev and /proc are unmounted, the
    sweep fails on the stray mount /mnt/vol/mnt, and the error record names
    /mnt/vol/proc, the mountpoint left in [mountspec] by the first loop. *)
Theorem stray_failure_record_names_configured_mount :
  fst (fst (teardown_chroot (Host.plugin Host.proc_dev) Host.w_strays)) = Ret false /\
  unmounts (snd (teardown_chroot (Host.plugin Host.proc_dev) Host.w_strays)) =
  [("/mnt/vol/dev", Host.ok);
   ("/mnt/vol/proc", Host.ok);
   ("/mnt/vol/mnt", Host.failed "umount: /mnt/vol/mnt: device is busy")] /\
  logs (snd (teardown_chroot (Host.plugin Host.proc_dev) Host.w_strays)) =
  [(ERROR, "Unable to unmount /mnt/vol/proc: umount: /mnt/vol/mnt: device is busy")].
Proof. repeat split; reflexivity. Qed.

(** * Further properties of the plugin *)

(** ** Where the plugin works: under the base path *)

Lemma prefix_app (a b : string) : String.prefix a (a ++ b) = true.
Proof.
  induction a as [|c a IH]; simpl.
  - now destruct b.
  - destruct (ascii_dec c c) as [_|N]; [exact IH | contradiction].
Qed.

Lemma lstrip_slash_no_slash (s : string) : startswith_slash (lstrip_slash s) = false.
Proof.
  induction s as [|c s IH]; simpl; [reflexivity|].
  destruct (Ascii.eqb c "/") eqn:E; [exact IH|]. simpl. exact E.
Qed.

Lemma path_join_relative_prefix (a b : string) :
  startswith_slash b = false -> String.prefix a (path_join a b) = true.
Proof.
  intros H. unfold path_join. rewrite H.
  destruct (String.eqb a "" || endswith_slash a)%bool; apply prefix_app.
Qed.

Lemma mountpoint_under_base (self : Plugin) (md : mountdef) :
  String.prefix (self_mountpoint self) (mountpoint (mountspec_of self md)) = true.
Proof.
  destruct md as [[[d f] m] o]. simpl.
  apply path_join_relative_prefix, lstrip_slash_no_slash.
Qed.

(** X1.  The mountpoint of a configured entry is joined to the base path after
    its leading slashes are dropped, so it always lies under the base path,
    where joining the entry as written would leave the base path for any
    absolute mountpoint; device, type and options are passed on as
    configured. *)
Theorem mountspec_of_stays_under_base (self : Plugin) (d f m o : string) :
  String.prefix (self_mountpoint self)
                (mountpoint (mountspec_of self (d, f, m, o))) = true /\
  mountpoint (mountspec_of self (d, f, m, o)) =
    (if (String.eqb (self_mountpoint self) "" || endswith_slash (self_mountpoint self))%bool
     then self_mountpoint self ++ lstrip_slash m
     else self_mountpoint self ++ "/" ++ lstrip_slash m)%string /\
  (startswith_slash m = true -> path_join (self_mountpoint self) m = m) /\
  dev (mountspec_of self (d, f, m, o)) = d /\
  fstype (mountspec_of self (d, f, m, o)) = f /\
  options (mountspec_of self (d, f, m, o)) = o.
Proof.
  split; [|split; [|split]].
  - apply mountpoint_under_base.
  - simpl. unfold path_join. now rewrite lstrip_slash_no_slash.
  - intros H. unfold path_join. now rewrite H.
  - auto.
Qed.

Lemma mountspec_of_stays_under_base_witness :
  mountpoint (mountspec_of (Host.plugin Host.proc_dev) ("proc", "proc", "//proc", "")) =
  "/mnt/vol/proc" /\
  path_join "/mnt/vol" "//proc" = "//proc".
Proof.
  destruct (mountspec_of_stays_under_base (Host.plugin Host.proc_dev)
              "proc" "proc" "//proc" "") as (_ & Hm & Hj & _).
  split; [rewrite Hm; reflexivity | exact (Hj eq_refl)].
Defined.

Lemma mountpoint_inside_base (self : Plugin) (md : mountdef) :
  inside (self_mountpoint self) (mountpoint (mountspec_of self md)).
Proof.
  destruct md as [[[d f] m] o]. exists (lstrip_slash m).
  split; [apply lstrip_slash_no_slash | reflexivity].
Qed.

Lemma targets_inside_base (self : Plugin) :
  Forall (inside (self_mountpoint self)) (targets self).
Proof.
  unfold targets. apply Forall_forall. intros p Hp.
  apply in_map_iff in Hp. destruct Hp as (md & <- & _).
  apply mountpoint_inside_base.
Qed.

(** What [inside] says: under a base path that is not empty, the path starts
    with the base path closed by a separator, so a path in a sibling
    directory whose name only starts like the base path is not inside it. *)
Lemma inside_separator (b p : path) :
  inside b p -> b <> EmptyString ->
  exists rel,
    startswith_slash rel = false /\
    p = (if endswith_slash b then b ++ rel else b ++ "/" ++ rel)%string.
Proof.
  intros (rel & Hrel & ->) Hb. exists rel. split; [exact Hrel|].
  unfold path_join. rewrite Hrel.
  destruct b as [|c b]; [contradiction|]. reflexivity.
Qed.

Lemma sibling_volume_not_inside : ~ inside "/mnt/volume" "/mnt/volume2/proc".
Proof.
  intros H. apply inside_separator in H; [|discriminate].
  destruct H as (rel & _ & H). simpl in H. discriminate H.
Qed.

(** ** teardown_chroot on any host *)

Section TeardownOrder.

Context {W : Type} {OS : Linux W}.
Variable self : Plugin.

Notation "'base'" := (self_mountpoint self).
Notation "'tgt'" := (fun md => mountpoint (mountspec_of self md)).
Notation "'resolv'" := (path_join (self_mountpoint self) "etc/resolv.conf").

Lemma prologue_selectors (w : W) :
  visits (teardown_prologue self w) = [(base, true)] /\
  mounts (teardown_prologue self w) = [] /\
  copies (teardown_prologue self w) = [] /\
  (removals (teardown_prologue self w) = [] \/
   removals (teardown_prologue self w) = [resolv]).
Proof.
  unfold teardown_prologue. destruct (path_exists _ w); simpl; auto.
Qed.

(** The first loop of teardown_chroot over [l]: the mountpoints are examined
    in the order of [l] and unmount is called for exactly those found
    mounted; the loop mounts and copies nothing. *)
Lemma teardown_loop_calls l : forall s w o w' t,
  for_each (teardown_mount self) l s w = (o, w', t) ->
  map fst (visits t) = firstn (length (visits t)) (map tgt l) /\
  unmount_targets t = map fst (filter (fun v => snd v) (visits t)) /\
  mounts t = [] /\ copies t = [].
Proof.
  induction l as [|md l IH]; intros s w o w' t H.
  - rewrite for_each_nil in H. inversion H; subst. auto.
  - rewrite for_each_cons, teardown_mount_run in H. cbv zeta in H.
    destruct (mounted (tgt md) w).
    + destruct (success (fst (unmount (tgt md) w))).
      * destruct (for_each _ l _ _) as [[o2 w2] t2] eqn:E2.
        inversion H; subst; clear H.
        apply IH in E2. destruct E2 as (Hv & Hu & Hm & Hc).
        unfold unmount_targets, visits, unmounts, mounts, copies in *. simpl.
        split; [now rewrite Hv at 1|]. split; [now rewrite Hu|]. auto.
      * inversion H; subst; clear H.
        unfold unmount_targets, visits, unmounts, mounts, copies. simpl.
        repeat split; auto.
    + destruct (for_each _ l _ _) as [[o2 w2] t2] eqn:E2.
      inversion H; subst; clear H.
      apply IH in E2. destruct E2 as (Hv & Hu & Hm & Hc).
      unfold unmount_targets, visits, unmounts, mounts, copies in *. simpl.
      split; [now rewrite Hv at 1|]. auto.
Qed.

Lemma sweep_only_unmounts mountspec l : forall (w : W) o w' t,
  for_each (teardown_stray mountspec) l tt w = (o, w', t) ->
  visits t = [] /\ copies t = [].
Proof.
  induction l as [|p l IH]; intros w o w' t H.
  - rewrite for_each_nil in H. inversion H; subst. auto.
  - rewrite for_each_cons, teardown_stray_run in H. cbv zeta in H.
    destruct (success (fst (unmount p w))).
    + destruct (for_each _ l _ _) as [[o2 w2] t2] eqn:E2.
      inversion H; subst. exact (IH _ _ _ _ E2).
    + destruct mountspec; inversion H; subst; auto.
Qed.

(** The ways through teardown_chroot, with the trace of each. *)
Lemma teardown_chroot_cases (w w' : W) o t :
  teardown_chroot self w = (o, w', t) ->
  (success (busy_mount base w) = true /\ o = Ret false /\
   t = [EBusyMount base (busy_mount base w);
        ELog ERROR ("Unable to tear down chroot at " ++ base ++ ": device busy")])
  \/
  (success (busy_mount base w) = false /\ mounted base w = false /\ o = Ret true /\
   t = [EBusyMount base (busy_mount base w); EMounted base false;
        ELog WARNING (base ++ " not mounted. Success?...")])
  \/
  (success (busy_mount base w) = false /\ mounted base w = true /\
   exists o1 w1 tl,
     for_each (teardown_mount self) (rev (chroot_mounts self)) None
              (after_prologue self w) = (o1, w1, tl) /\
     ((o1 = Ret (inr false) /\ o = Ret false /\ w' = w1 /\
       t = teardown_prologue self w ++ tl)
      \/
      (o1 = Ret (inl (last_mountspec self (rev (chroot_mounts self)) None)) /\
       exists o2 ts,
         for_each (teardown_stray (last_mountspec self (rev (chroot_mounts self)) None))
                  (lifo_mounts base w1) tt w1 = (o2, w', ts) /\
         t = teardown_prologue self w ++ tl ++
             ELifoMounts base (lifo_mounts base w1) :: ts /\
         o = match o2 with
             | Ret (inl _) => Ret true
             | Ret (inr b) => Ret b
             | Raise e => Raise e
             end))).
Proof.
  intros H. rewrite teardown_chroot_run in H.
  destruct (success (busy_mount base w)).
  { left. injection H as <- _ <-. auto. }
  right. destruct (mounted base w); cbv [negb] in H.
  2:{ left. injection H as <- _ <-. auto. }
  right. split; [reflexivity|]. split; [reflexivity|].
  destruct (for_each _ _ None _) as [[o1 w1] tl] eqn:E1.
  exists o1, w1, tl. split; [reflexivity|].
  destruct (teardown_loop_shape _ _ _ _ E1) as (_ & _ & [(-> & _) | (-> & _)]).
  - right. split; [reflexivity|]. cbv zeta in H.
    destruct (for_each _ _ tt w1) as [[o2 w2] ts] eqn:E2.
    exists o2, ts.
    destruct o2 as [[u|b]|e]; injection H as <- <- <-; auto.
  - left. injection H as <- <- <-. auto.
Qed.

Lemma unmounts_all_succeeded (t : trace) :
  Forall (fun e => ~ failed_unmount e) t ->
  Forall (fun c => success (snd c) = true) (unmounts t).
Proof.
  induction 1 as [|e t He _ IH]; [constructor|].
  destruct e; try exact IH. unfold unmounts. simpl. constructor; [|exact IH].
  simpl. destruct (success r) eqn:Es; [reflexivity|].
  exfalso. apply He. eexists _, _. eauto.
Qed.

(** X4.  teardown_chroot examines the configured mountpoints, after the base
    path, in the reverse of the configured order, and calls unmount for
    exactly the examined ones that it found mounted; every other unmount
    call is made by the sweep, on the scanned paths in the order of the
    scan. *)
Theorem teardown_chroot_in_reverse_order (w w' : W) o t :
  teardown_chroot self w = (o, w', t) ->
  map fst (tl (visits t)) = firstn (length (tl (visits t))) (rev (targets self)) /\
  exists swept,
    unmount_targets t = map fst (filter (fun v => snd v) (tl (visits t))) ++ swept /\
    (sweeps t = [] -> swept = []) /\
    (forall b l, In (b, l) (sweeps t) -> exists rest, l = swept ++ rest).
Proof.
  intros H. apply teardown_chroot_cases in H.
  destruct H as [(_ & _ & ->) | [(_ & _ & _ & ->) |
                 (_ & _ & o1 & w1 & tl & E1 & Hcase)]].
  - split; [reflexivity|]. exists []. repeat split; auto. intros b l [].
  - split; [reflexivity|]. exists []. repeat split; auto. intros b l [].
  - destruct (prologue_selectors w) as (Hpv & _).
    assert (Hpu := prologue_unmounts self w).
    assert (Hps := prologue_sweeps self w).
    destruct (teardown_loop_shape _ _ _ _ E1) as (Hs1 & _).
    apply teardown_loop_calls in E1. destruct E1 as (Hv & Hu & _).
    rewrite map_rev in Hv. fold (targets self) in Hv.
    destruct Hcase as [(_ & _ & _ & ->) | (_ & o2 & ts & E2 & -> & _)].
    + unfold visits, unmount_targets, unmounts, sweeps in *.
      rewrite !select_app, Hpv, Hpu, Hps, Hs1. simpl.
      split; [exact Hv|]. exists []. rewrite app_nil_r.
      split; [exact Hu|]. split; [reflexivity | intros b l []].
    + destruct (sweep_only_unmounts _ _ _ E2) as (Hv2 & _).
      apply sweep_shape in E2. destruct E2 as (Hs2 & _ & _ & (rest & Hl & _) & _).
      unfold visits, unmount_targets, unmounts, sweeps in *.
      rewrite !select_app, Hpv, Hpu, Hps, Hs1. simpl.
      rewrite ?select_app. simpl. rewrite Hv2, Hs2, app_nil_r, map_app.
      split; [exact Hv|]. exists (map fst (select
        (fun e => match e with EUnmount p r => Some (p, r) | _ => None end) ts)).
      split; [now rewrite Hu|]. split; [discriminate|].
      intros b l [Hbl | []]. inversion Hbl; subst. exists rest. exact Hl.
Qed.

(** X5.  teardown_chroot starts with the busy check of the base path, never
    mounts and never copies, removes nothing but the resolv.conf under the
    base path, and scans for strays at most once, under the base path. *)
Theorem teardown_chroot_only_unmounts (w w' : W) o t :
  teardown_chroot self w = (o, w', t) ->
  (exists t', t = EBusyMount base (busy_mount base w) :: t') /\
  mounts t = [] /\ copies t = [] /\
  (removals t = [] \/ removals t = [resolv]) /\
  (sweeps t = [] \/ exists l, sweeps t = [(base, l)]).
Proof.
  intros H. apply teardown_chroot_cases in H.
  destruct H as [(_ & _ & ->) | [(_ & _ & _ & ->) |
                 (_ & _ & o1 & w1 & tl & E1 & Hcase)]].
  - split; [eauto|]. auto.
  - split; [eauto|]. auto.
  - destruct (prologue_selectors w) as (_ & Hpm & Hpc & Hpr).
    assert (Hps := prologue_sweeps self w).
    destruct (teardown_loop_shape _ _ _ _ E1) as (Hs1 & Hr1 & _).
    apply teardown_loop_calls in E1. destruct E1 as (_ & _ & Hm1 & Hc1).
    assert (Hhead : forall rest, exists t',
               teardown_prologue self w ++ rest =
               EBusyMount base (busy_mount base w) :: t').
    { intros rest. unfold teardown_prologue. simpl. eauto. }
    destruct Hcase as [(_ & _ & _ & ->) | (_ & o2 & ts & E2 & -> & _)].
    + split; [apply Hhead|].
      unfold mounts, copies, removals, sweeps in *.
      rewrite !select_app, Hpm, Hpc, Hps, Hm1, Hc1, Hr1, Hs1, !app_nil_r. auto.
    + destruct (sweep_only_unmounts _ _ _ E2) as (_ & Hc2).
      apply sweep_shape in E2. destruct E2 as (Hs2 & Hr2 & Hm2 & _).
      split; [apply Hhead|].
      unfold mounts, copies, removals, sweeps in *.
      rewrite !select_app, Hpm, Hpc, Hps, Hm1, Hc1, Hr1, Hs1. simpl.
      rewrite Hm2, Hc2, Hr2, Hs2, !app_nil_r.
      split; [reflexivity|]. split; [reflexivity|]. split; [|eauto].
      destruct (path_exists _ w); simpl; auto.
Qed.

Lemma teardown_outcomes (w w' : W) o t :
  teardown_chroot self w = (o, w', t) ->
  (o = Ret true ->
   success (busy_mount base w) = false /\
   Forall (fun c => success (snd c) = true) (unmounts t)) /\
  (o = Ret false ->
   success (busy_mount base w) = true \/
   exists t1 p r msg,
     t = t1 ++ [EUnmount p r; ELog ERROR msg] /\ success r = false) /\
  (forall e, o = Raise e ->
   e = UnboundLocalError "mountspec" /\ chroot_mounts self = []).
Proof.
  intros H. apply teardown_chroot_cases in H.
  destruct H as [(Hb & -> & ->) | [(Hb & _ & -> & ->) |
                 (Hb & _ & o1 & w1 & tl & E1 & Hcase)]].
  - split; [discriminate|]. split; [auto | discriminate].
  - split; [|split; discriminate]. intros _. split; [exact Hb | constructor].
  - assert (Hpf := prologue_no_failed_unmount self w).
    destruct (teardown_loop_shape _ _ _ _ E1)
      as (_ & _ & [(Ho1 & Hf1) | (Ho1 & ta & p & r & Hta & Hr & _)]).
    + destruct Hcase as [(Ho1' & _) | (_ & o2 & ts & E2 & -> & ->)];
        [rewrite Ho1 in Ho1'; discriminate|].
      apply sweep_shape in E2.
      destruct E2 as (_ & _ & _ & _ & [(-> & Hf2) | (tb & q & rq & Hrq & _ & Hms)]).
      * split; [|split; discriminate]. intros _. split; [exact Hb|].
        apply unmounts_all_succeeded.
        apply Forall_app. split; [exact Hpf|].
        apply Forall_app. split; [exact Hf1|].
        constructor; [not_failed | exact Hf2].
      * destruct (chroot_mounts self) as [|md l] eqn:Hcfg.
        -- simpl in Hms. destruct Hms as (-> & _).
           split; [discriminate|]. split; [discriminate|].
           intros e He. inversion He. auto.
        -- rewrite last_mountspec_rev in Hms. destruct Hms as (-> & ->).
           split; [discriminate|]. split; [|discriminate].
           intros _. right.
           eexists (teardown_prologue self w ++ tl ++
                    ELifoMounts base (lifo_mounts base w1) :: tb), q, rq, _.
           split; [|exact Hrq]. rewrite <- !app_assoc. reflexivity.
    + destruct Hcase as [(_ & -> & _ & ->) | (Ho1' & _)];
        [|rewrite Ho1 in Ho1'; discriminate].
      split; [discriminate|]. split; [|discriminate].
      intros _. right. subst tl.
      eexists (teardown_prologue self w ++ ta), p, r, _.
      split; [|exact Hr]. rewrite <- app_assoc. reflexivity.
Qed.

Lemma failed_unmount_not_all_succeeded (t t1 t2 : trace) p r :
  t = t1 ++ EUnmount p r :: t2 -> success r = false ->
  ~ Forall (fun c => success (snd c) = true) (unmounts t).
Proof.
  intros -> Hr Hall. unfold unmounts in Hall. rewrite select_app in Hall.
  apply Forall_app in Hall. destruct Hall as (_ & Hall). simpl in Hall.
  inversion Hall as [|c l Hc _]; subst. simpl in Hc. congruence.
Qed.

(** X6.  What the result of teardown_chroot tells.  True: the base path was not
    busy and no unmount call failed.  False: the base path was busy, or the
    last call made was an unmount that failed.  The other way round, on a
    busy base path the result is False, and after an unmount call that
    failed it is False again, unless the configured list is empty, when it
    is the UnboundLocalError of the sweep. *)
Theorem teardown_chroot_result (w w' : W) o t :
  teardown_chroot self w = (o, w', t) ->
  (o = Ret true ->
   success (busy_mount base w) = false /\
   Forall (fun c => success (snd c) = true) (unmounts t)) /\
  (o = Ret false ->
   success (busy_mount base w) = true \/
   exists t1 p r msg,
     t = t1 ++ [EUnmount p r; ELog ERROR msg] /\ success r = false) /\
  (success (busy_mount base w) = true -> o = Ret false) /\
  (forall t1 p r t2,
      t = t1 ++ EUnmount p r :: t2 -> success r = false ->
      o = Ret false \/
      (o = Raise (UnboundLocalError "mountspec") /\ chroot_mounts self = [])).
Proof.
  intros H. destruct (teardown_outcomes _ H) as (Htrue & Hfalse & Hraise).
  split; [exact Htrue|]. split; [exact Hfalse|]. split.
  - intros Hb. apply teardown_chroot_cases in H.
    destruct H as [(_ & -> & _) | [(Hb' & _) | (Hb' & _)]];
      [reflexivity | congruence | congruence].
  - intros t1 p r t2 Ht Hr. destruct o as [[|]|e].
    + exfalso. exact (@failed_unmount_not_all_succeeded _ _ _ _ _ Ht Hr (proj2 (Htrue eq_refl))).
    + now left.
    + right. destruct (Hraise e eq_refl) as (-> & Hcfg). auto.
Qed.

(** X7.  __exit__ never returns True, so it never swallows an exception of the
    block it closes.  It returns False exactly when teardown_chroot returned
    True, raises VolumeException when teardown_chroot returned False, and
    lets an exception of teardown_chroot through; it calls and changes what
    teardown_chroot does, nothing more.  So when it returns, the base path
    was not busy and every unmount call succeeded; on a busy base path it
    raises VolumeException, and with a configured mount it raises
    VolumeException after an unmount call that failed. *)
Theorem exit_never_suppresses (w w' : W) o t :
  __exit__ self w = (o, w', t) ->
  o <> Ret true /\
  (o = Ret false <-> teardown_chroot self w = (Ret true, w', t)) /\
  (teardown_chroot self w = (Ret false, w', t) ->
   o = Raise (VolumeException "Error tearing down chroot")) /\
  (forall e, teardown_chroot self w = (Raise e, w', t) -> o = Raise e) /\
  (exists b, teardown_chroot self w = (b, w', t)) /\
  (o = Ret false ->
   success (busy_mount base w) = false /\
   Forall (fun c => success (snd c) = true) (unmounts t)) /\
  (success (busy_mount base w) = true ->
   o = Raise (VolumeException "Error tearing down chroot")) /\
  (forall t1 p r t2,
      t = t1 ++ EUnmount p r :: t2 -> success r = false ->
      chroot_mounts self <> [] ->
      o = Raise (VolumeException "Error tearing down chroot")).
Proof.
  intros H. unfold __exit__, bind in H.
  destruct (teardown_chroot self w) as [[o1 w1] t1] eqn:E.
  assert (Hexit : w' = w1 /\ t = t1 /\
                  o = match o1 with
                      | Ret true => Ret false
                      | Ret false => Raise (VolumeException "Error tearing down chroot")
                      | Raise e => Raise e
                      end).
  { destruct o1 as [[|]|e]; simpl in H; injection H as <- <- <-;
      rewrite ?app_nil_r; auto. }
  clear H. destruct Hexit as (-> & -> & ->).
  destruct (teardown_outcomes _ E) as (Htrue & _).
  split; [destruct o1 as [[|]|e]; discriminate|].
  split; [split; [destruct o1 as [[|]|e]; intros Ho; (discriminate Ho || reflexivity)
                 | intros Ho; injection Ho as ->; reflexivity]|].
  split; [intros Ho; injection Ho as ->; reflexivity|].
  split; [intros e Ho; injection Ho as ->; reflexivity|].
  split; [now exists o1|].
  split; [intros Ho; apply Htrue; destruct o1 as [[|]|e];
          (discriminate Ho || reflexivity)|].
  split.
  - intros Hb. apply teardown_chroot_cases in E.
    destruct E as [(_ & -> & _) | [(Hb' & _) | (Hb' & _)]];
      [reflexivity | congruence | congruence].
  - intros ta p r tb Ht Hr Hcfg. destruct o1 as [[|]|e].
    + exfalso. exact (@failed_unmount_not_all_succeeded _ _ _ _ _ Ht Hr (proj2 (Htrue eq_refl))).
    + reflexivity.
    + destruct (teardown_outcomes _ E) as (_ & _ & Hraise).
      destruct (Hraise e eq_refl) as (_ & Hnil). contradiction.
Qed.

End TeardownOrder.

(** ** configure_chroot and __enter__ on any host *)

Lemma in_firstn {A} (n : nat) (l : list A) (x : A) : In x (firstn n l) -> In x l.
Proof.
  revert l. induction n as [|n IH]; intros [|a l] H; simpl in H; try contradiction.
  destruct H as [-> | H]; [now left | right; now apply IH].
Qed.

Lemma mounts_all_succeeded (t : trace) :
  Forall (fun e => ~ failed_mount e) t ->
  Forall (fun c => success (snd c) = true) (mounts t).
Proof.
  induction 1 as [|e t He _ IH]; [constructor|].
  destruct e; try exact IH. unfold mounts. simpl. constructor; [|exact IH].
  simpl. destruct (success r) eqn:Es; [reflexivity|].
  exfalso. apply He. eexists _, _. eauto.
Qed.

Section EnterOrder.

Context {W : Type} {OS : Linux W}.
Variable self : Plugin.

Notation "'base'" := (self_mountpoint self).

(** X8.  __enter__ returns exactly when configure_chroot returned True, raises
    VolumeException when configure_chroot returned False, and lets an
    exception of configure_chroot through; it calls and changes what
    configure_chroot does, nothing more.  So when it returns, every mount
    call succeeded; and a mount call that failed makes it raise
    VolumeException, with only the log record after the failed call and
    nothing copied. *)
Theorem enter_raises_on_failed_mount (w w' : W) o t :
  __enter__ self w = (o, w', t) ->
  (o = Ret tt <-> configure_chroot self w = (Ret true, w', t)) /\
  (configure_chroot self w = (Ret false, w', t) ->
   o = Raise (VolumeException "Error configuring chroot")) /\
  (forall e, configure_chroot self w = (Raise e, w', t) -> o = Raise e) /\
  (exists b, configure_chroot self w = (b, w', t)) /\
  (o = Ret tt -> Forall (fun c => success (snd c) = true) (mounts t)) /\
  (forall t1 ms r t2,
      t = t1 ++ EMount ms r :: t2 -> success r = false ->
      o = Raise (VolumeException "Error configuring chroot") /\
      t2 = [ELog CRITICAL ("Unable to configure chroot: " ++ std_err r)] /\
      copies t = []).
Proof.
  intros H. unfold __enter__, bind in H.
  destruct (configure_chroot self w) as [[o1 w1] t1] eqn:E.
  assert (Henter : w' = w1 /\ t = t1 /\
                   o = match o1 with
                       | Ret true => Ret tt
                       | Ret false => Raise (VolumeException "Error configuring chroot")
                       | Raise e => Raise e
                       end).
  { destruct o1 as [[|]|e]; simpl in H; injection H as <- <- <-;
      rewrite ?app_nil_r; auto. }
  clear H. destruct Henter as (-> & -> & ->).
  destruct (configure_chroot_order_facts _ _ E) as (_ & _ & _ & Hfail & _).
  split; [split; [destruct o1 as [[|]|e]; intros Ho; (discriminate Ho || reflexivity)
                 | intros Ho; injection Ho as ->; reflexivity]|].
  split; [intros Ho; injection Ho as ->; reflexivity|].
  split; [intros e Ho; injection Ho as ->; reflexivity|].
  split; [now exists o1|].
  split.
  - intros Ho. assert (Ho1 : o1 = Ret true)
      by (destruct o1 as [[|]|e]; (discriminate Ho || reflexivity)).
    subst o1. clear Ho. rewrite configure_chroot_run in E.
    destruct (for_each _ _ tt w) as [[o2 w2] t2] eqn:E2.
    apply configure_loop_shape in E2.
    destruct E2 as (_ & _ & _ & _ & [(-> & Hf & _) | (-> & _)]);
      [|discriminate E].
    assert (Ht : exists e1 e2, t1 = t2 ++ [e1; e2] /\ mounts [e1; e2] = []).
    { destruct (isfile _ w2); injection E as _ <-; eauto. }
    destruct Ht as (e1 & e2 & -> & Hm).
    unfold mounts in *. rewrite select_app, Hm, app_nil_r.
    now apply mounts_all_succeeded.
  - intros ta ms r tb Ht Hr.
    destruct (Hfail _ _ _ _ Ht Hr) as (-> & Htb & Hc & _). auto.
Qed.

End EnterOrder.

(** ** The plugin pointed at a volume *)

Section UnderVolume.

Context {W : Type} {OS : Linux W}.
Variable self : Plugin.
Variable volume : path.

Lemma call_targets_inside_volume :
  Forall (inside volume) (targets (__call__ self volume)).
Proof. exact (targets_inside_base (__call__ self volume)). Qed.

(** X2.  Once the plugin is called on a volume, configure_chroot examines and
    mounts only paths inside the volume: the volume, a separator, and a
    relative path (what a [..] in a configured mountpoint leads to is not
    looked at, by the code or here).  Its one copy is of /etc/resolv.conf
    into the directory etc/ of the volume.  It takes the configured list as
    it was, and unmounts nothing. *)
Theorem configure_chroot_stays_under_volume (w w' : W) o t :
  configure_chroot (__call__ self volume) w = (o, w', t) ->
  chroot_mounts (__call__ self volume) = chroot_mounts self /\
  Forall (fun v => inside volume (fst v)) (visits t) /\
  Forall (fun c => inside volume (mountpoint (fst c))) (mounts t) /\
  Forall (fun c => c = ("/etc/resolv.conf", path_join volume "etc/")) (copies t) /\
  unmounts t = [].
Proof.
  intros H. split; [reflexivity|]. rewrite configure_chroot_run in H.
  destruct (for_each _ _ tt w) as [[o1 w1] t1] eqn:E1.
  apply configure_loop_shape in E1. destruct E1 as (Hv & Hm & Hu & Hc & Hcase).
  assert (Hv1 : Forall (fun v => inside volume (fst v)) (visits t1)).
  { apply Forall_forall. intros v Hin. apply (in_map (@fst path bool)) in Hin.
    rewrite Hv in Hin. apply in_firstn in Hin.
    pose proof call_targets_inside_volume as Hall.
    rewrite Forall_forall in Hall. exact (Hall _ Hin). }
  assert (Hm1 : Forall (fun c => inside volume (mountpoint (fst c))) (mounts t1)).
  { apply Forall_forall. intros c Hms. apply (in_map (@fst MountSpec Result)) in Hms.
    rewrite Hm in Hms.
    apply in_map_iff in Hms. destruct Hms as ([ms' b] & <- & Hin).
    apply filter_In in Hin. destruct Hin as (Hin & _).
    apply in_combine_l in Hin. apply in_map_iff in Hin.
    destruct Hin as (md & <- & _). simpl.
    exact (mountpoint_inside_base (__call__ self volume) md). }
  assert (Ht : t = t1 \/
               (exists e, t = t1 ++ [EIsFile "/etc/resolv.conf" false; ELog WARNING e]) \/
               t = t1 ++ [EIsFile "/etc/resolv.conf" true;
                          ECopy "/etc/resolv.conf" (path_join volume "etc/")]).
  { destruct o1 as [[u|b]|e].
    - right. destruct (isfile _ w1); injection H as _ _ <-; eauto.
    - left. now injection H as _ _ <-.
    - left. now injection H as _ _ <-. }
  unfold visits, mounts, copies, unmounts in *.
  destruct Ht as [-> | [(e & ->) | ->]]; rewrite ?select_app, ?Hc, ?Hu; simpl;
    rewrite ?app_nil_r; repeat split; auto.
Qed.

(** X3.  Once the plugin is called on a volume, teardown_chroot examines only
    the volume and paths inside it: the volume, a separator, and a relative
    path.  The one file it removes is etc/resolv.conf of the volume.  Every
    path it unmounts is inside the volume or was listed by its scan of the
    volume. *)
Theorem teardown_chroot_stays_under_volume (w w' : W) o t :
  teardown_chroot (__call__ self volume) w = (o, w', t) ->
  Forall (fun v => fst v = volume \/ inside volume (fst v)) (visits t) /\
  Forall (fun p => p = path_join volume "etc/resolv.conf") (removals t) /\
  (forall p, In p (unmount_targets t) ->
             inside volume p \/
             exists l, In (volume, l) (sweeps t) /\ In p l).
Proof.
  intros H. apply teardown_chroot_cases in H. simpl self_mountpoint in H.
  destruct H as [(_ & _ & ->) | [(_ & _ & _ & ->) |
                 (_ & _ & o1 & w1 & tl & E1 & Hcase)]].
  - split; [constructor|]. split; [constructor|]. intros p [].
  - split; [|split; [constructor | intros p []]].
    constructor; [now left | constructor].
  - destruct (prologue_selectors (__call__ self volume) w) as (Hpv & _ & _ & Hpr).
    assert (Hpu := prologue_unmounts (__call__ self volume) w).
    assert (Hps := prologue_sweeps (__call__ self volume) w).
    simpl self_mountpoint in *.
    destruct (teardown_loop_shape _ _ _ _ E1) as (Hs1 & Hr1 & _).
    apply teardown_loop_calls in E1. destruct E1 as (Hv & Hu & _).
    assert (Hv1 : Forall (fun v => inside volume (fst v)) (visits tl)).
    { apply Forall_forall. intros [p b] Hin. apply (in_map (@fst path bool)) in Hin.
      rewrite Hv in Hin. apply in_firstn in Hin. apply in_map_iff in Hin.
      simpl in Hin |- *. destruct Hin as (md & <- & _).
      exact (mountpoint_inside_base (__call__ self volume) md). }
    assert (Hu1 : forall p, In p (unmount_targets tl) -> inside volume p).
    { intros p Hp. rewrite Hu in Hp. apply in_map_iff in Hp.
      destruct Hp as (v & <- & Hin). apply filter_In in Hin.
      rewrite Forall_forall in Hv1. apply Hv1, Hin. }
    assert (Hrm : Forall (fun p => p = path_join volume "etc/resolv.conf")
                    (removals (teardown_prologue (__call__ self volume) w))).
    { destruct Hpr as [-> | ->]; [constructor|].
      constructor; [reflexivity | constructor]. }
    assert (Hvis : forall rest, visits rest = [] ->
               Forall (fun v => fst v = volume \/ inside volume (fst v))
                 (visits (teardown_prologue (__call__ self volume) w ++ tl ++ rest))).
    { intros rest Hrest. unfold visits in *. rewrite !select_app, Hpv, Hrest, app_nil_r.
      constructor; [now left|]. eapply Forall_impl; [|exact Hv1]. intros v Hv'. now right. }
    destruct Hcase as [(_ & _ & _ & ->) | (_ & o2 & ts & E2 & -> & _)].
    + split; [|split].
      * rewrite <- (app_nil_r tl). now apply Hvis.
      * unfold removals in *. rewrite select_app, Hr1, app_nil_r. exact Hrm.
      * intros p Hp. left. apply Hu1.
        unfold unmount_targets, unmounts in Hp.
        rewrite select_app in Hp. fold unmounts in Hp. now rewrite Hpu in Hp.
    + destruct (sweep_only_unmounts _ _ _ E2) as (Hv2 & _).
      apply sweep_shape in E2.
      destruct E2 as (Hs2 & Hr2 & _ & (rest & Hl & _) & _).
      split; [|split].
      * apply Hvis. unfold visits in *. simpl. exact Hv2.
      * unfold removals in *. rewrite !select_app, Hr1. simpl.
        rewrite Hr2, app_nil_r. exact Hrm.
      * intros p Hp. unfold unmount_targets, unmounts in Hp.
        rewrite !select_app in Hp. fold unmounts in Hp. rewrite Hpu in Hp.
        simpl in Hp. rewrite map_app in Hp. apply in_app_or in Hp.
        destruct Hp as [Hp | Hp]; [left; now apply Hu1|].
        right. exists (lifo_mounts volume w1). split.
        -- unfold sweeps. rewrite !select_app. fold sweeps.
           rewrite Hps, Hs1. simpl. now left.
        -- rewrite Hl. apply in_or_app. now left.
Qed.

End UnderVolume.

(** ** What Enter and Exit leave in the mount table *)

Lemma existsb_rev {A} (f : A -> bool) (l : list A) :
  existsb f (rev l) = existsb f l.
Proof.
  induction l as [|a l IH]; simpl; [reflexivity|].
  rewrite existsb_app, IH. simpl. rewrite orb_false_r. apply orb_comm.
Qed.

Section Postconditions.

Context {W : Type} {OS : Linux W} {Laws : LinuxLaws OS}.
Variable self : Plugin.

Notation "'base'" := (self_mountpoint self).
Notation "'tgt'" := (fun md => mountpoint (mountspec_of self md)).

(** The loop of configure_chroot, when it falls through, has added the
    mountpoints of its list to the mount table and changed nothing else. *)
Lemma configure_loop_mounts_all l : forall (w w1 : W) t1,
  for_each (configure_mount self) l tt w = (Ret (inl tt), w1, t1) ->
  forall q, mounted q w1 = (existsb (String.eqb q) (map tgt l) || mounted q w)%bool.
Proof.
  induction l as [|md l IH]; intros w w1 t1 H q.
  - rewrite for_each_nil in H. inversion H; subst. reflexivity.
  - rewrite for_each_cons, configure_mount_run in H. cbv zeta in H. simpl.
    destruct (mounted (tgt md) w) eqn:Em.
    + destruct (for_each _ l _ _) as [[o2 w2] t2] eqn:E2.
      inversion H; subst; clear H. rewrite (IH _ _ _ E2 q).
      destruct (String.eqb q (tgt md)) eqn:Eq; [|reflexivity].
      apply String.eqb_eq in Eq. subst q. rewrite Em.
      now rewrite !orb_true_r.
    + destruct (success (fst (mount (mountspec_of self md) w))) eqn:Es;
        [|discriminate].
      destruct (for_each _ l _ _) as [[o2 w2] t2] eqn:E2.
      inversion H; subst; clear H. rewrite (IH _ _ _ E2 q).
      rewrite mounted_mount, Es.
      destruct (String.eqb q (tgt md)), (existsb (String.eqb q) (map tgt l)),
        (mounted q w); reflexivity.
Qed.

(** On mountpoints that are all mounted, the loop of configure_chroot calls
    mount for none and leaves the world as it is. *)
Lemma configure_loop_all_mounted l : forall (w : W),
  (forall p, In p (map tgt l) -> mounted p w = true) ->
  exists t,
    for_each (configure_mount self) l tt w = (Ret (inl tt), w, t) /\
    mounts t = [] /\ map fst (visits t) = map tgt l.
Proof.
  induction l as [|md l IH]; intros w Hall.
  - exists []. rewrite for_each_nil. auto.
  - simpl in Hall. destruct (IH w) as (t & E & Hm & Hv); [auto|].
    exists (EMounted (tgt md) true :: t).
    rewrite for_each_cons, configure_mount_run. cbv zeta.
    rewrite (Hall (tgt md)) by auto. rewrite E.
    unfold mounts, visits in *. simpl. rewrite Hv. auto.
Qed.

(** The first loop of teardown_chroot, when it falls through, has taken the
    mountpoints of its list out of the mount table and changed nothing
    else. *)
Lemma teardown_loop_unmounts l : forall s (w : W) s' w' t,
  for_each (teardown_mount self) l s w = (Ret (inl s'), w', t) ->
  forall q, mounted q w' =
            (negb (existsb (String.eqb q) (map tgt l)) && mounted q w)%bool.
Proof.
  induction l as [|md l IH]; intros s w s' w' t H q.
  - rewrite for_each_nil in H. inversion H; subst. reflexivity.
  - rewrite for_each_cons, teardown_mount_run in H. cbv zeta in H. simpl.
    destruct (mounted (tgt md) w) eqn:Em.
    + destruct (success (fst (unmount (tgt md) w))) eqn:Es; [|discriminate].
      destruct (for_each _ l _ _) as [[o2 w2] t2] eqn:E2.
      inversion H; subst; clear H. rewrite (IH _ _ _ _ _ E2 q).
      rewrite mounted_unmount, Es.
      destruct (String.eqb q (tgt md)), (existsb (String.eqb q) (map tgt l)),
        (mounted q w); reflexivity.
    + destruct (for_each _ l _ _) as [[o2 w2] t2] eqn:E2.
      inversion H; subst; clear H. rewrite (IH _ _ _ _ _ E2 q).
      destruct (String.eqb q (tgt md)) eqn:Eq; [|reflexivity].
      apply String.eqb_eq in Eq. subst q. rewrite Em.
      now rewrite !andb_false_r.
Qed.

(** The sweep, when it falls through, has taken the scanned paths out of the
    mount table and changed nothing else. *)
Lemma sweep_unmounts mountspec l : forall (w w' : W) t,
  for_each (teardown_stray mountspec) l tt w = (Ret (inl tt), w', t) ->
  forall q, mounted q w' = (negb (existsb (String.eqb q) l) && mounted q w)%bool.
Proof.
  induction l as [|p l IH]; intros w w' t H q.
  - rewrite for_each_nil in H. inversion H; subst. reflexivity.
  - rewrite for_each_cons, teardown_stray_run in H. cbv zeta in H. simpl.
    destruct (success (fst (unmount p w))) eqn:Es.
    + destruct (for_each _ l _ _) as [[o2 w2] t2] eqn:E2.
      inversion H; subst; clear H. rewrite (IH _ _ _ E2 q).
      rewrite mounted_unmount, Es.
      destruct (String.eqb q p), (existsb (String.eqb q) l), (mounted q w);
        reflexivity.
    + destruct mountspec; discriminate.
Qed.

Lemma configure_success_table (w w1 : W) t :
  configure_chroot self w = (Ret true, w1, t) ->
  forall q, mounted q w1 = (configured self q || mounted q w)%bool.
Proof.
  intros H q. rewrite configure_chroot_run in H.
  destruct (for_each _ _ tt w) as [[o1 wl] tl] eqn:E1.
  assert (Ho1 : o1 = Ret (inl tt)).
  { destruct (configure_loop_shape _ _ _ E1)
      as (_ & _ & _ & _ & [(-> & _) | (-> & _)]); [reflexivity|discriminate]. }
  subst o1. unfold configured, targets.
  rewrite <- (configure_loop_mounts_all _ _ E1 q).
  destruct (isfile _ wl); injection H as <- _; [apply mounted_copy | reflexivity].
Qed.

(** X9.  After configure_chroot returned True, the mount table is the one it
    found plus the configured mountpoints: every configured mountpoint is
    mounted and no other path was mounted or unmounted. *)
Theorem configure_chroot_mounts_configured (w w1 : W) t :
  configure_chroot self w = (Ret true, w1, t) ->
  (forall p, In p (targets self) -> mounted p w1 = true) /\
  (forall q, mounted q w1 = (configured self q || mounted q w)%bool).
Proof.
  intros H. split; [|now apply configure_success_table with (t := t)].
  intros p Hp. rewrite (configure_success_table _ H).
  apply existsb_eqb_In in Hp. unfold configured. now rewrite Hp.
Qed.

(** X10.  configure_chroot is idempotent: run again after it returned True, it
    examines every configured mountpoint, calls mount for none, returns True
    and leaves the mount table as it is. *)
Theorem configure_chroot_idempotent (w w1 : W) t :
  configure_chroot self w = (Ret true, w1, t) ->
  exists w2 t2,
    configure_chroot self w1 = (Ret true, w2, t2) /\
    mounts t2 = [] /\
    map fst (visits t2) = targets self /\
    forall q, mounted q w2 = mounted q w1.
Proof.
  intros H.
  assert (Hall : forall p, In p (targets self) -> mounted p w1 = true).
  { intros p Hp. rewrite (configure_success_table _ H).
    apply existsb_eqb_In in Hp. unfold configured. now rewrite Hp. }
  destruct (configure_loop_all_mounted (chroot_mounts self) w1 Hall)
    as (t2 & E & Hm & Hv).
  rewrite configure_chroot_run, E.
  destruct (isfile "/etc/resolv.conf" w1); do 2 eexists;
    (split; [reflexivity|]);
    (split; [unfold mounts in *; rewrite select_app, Hm; reflexivity|]);
    (split; [unfold visits in *; rewrite select_app, map_app, Hv; simpl;
             apply app_nil_r|]);
    intros q; [apply mounted_copy | reflexivity].
Qed.

Lemma teardown_success_table (w w' : W) t :
  teardown_chroot self w = (Ret true, w', t) ->
  mounted base w = true ->
  sweeps t = [(base, lifo_mounts base
                       (snd (fst (for_each (teardown_mount self)
                                    (rev (chroot_mounts self)) None
                                    (after_prologue self w)))))] /\
  forall q, mounted q w' =
            (mounted q w && negb (configured self q)
             && negb (existsb (String.eqb q)
                        (lifo_mounts base
                           (snd (fst (for_each (teardown_mount self)
                                        (rev (chroot_mounts self)) None
                                        (after_prologue self w)))))))%bool.
Proof.
  intros H Hm. apply teardown_chroot_cases in H.
  destruct H as [(_ & Ho & _) | [(_ & Hm' & _) |
                 (_ & _ & o1 & w1 & tl & E1 & Hcase)]];
    [discriminate | congruence |].
  rewrite E1. simpl.
  destruct Hcase as [(_ & Ho & _) | (-> & o2 & ts & E2 & -> & Ho)];
    [discriminate|].
  destruct (teardown_loop_shape _ _ _ _ E1) as (Hs1 & _).
  assert (Htab := teardown_loop_unmounts _ _ _ E1).
  destruct (sweep_shape _ _ _ E2)
    as (Hs2 & _ & _ & _ & [(-> & _) | (ta & p & r & _ & _ & Hms)]).
  2:{ exfalso. destruct (last_mountspec self _ None);
        destruct Hms as (-> & _); discriminate. }
  split.
  - assert (Hps := prologue_sweeps self w).
    unfold sweeps in *. rewrite !select_app, Hps, Hs1. simpl. now rewrite Hs2.
  - intros q. pose proof E2 as Hsw. eapply sweep_unmounts in Hsw.
    rewrite Hsw, Htab, after_prologue_mounted.
    rewrite map_rev, existsb_rev. fold (targets self). fold (configured self q).
    destruct (mounted q w), (configured self q),
      (existsb (String.eqb q) (lifo_mounts base w1)); reflexivity.
Qed.

(** X11.  After teardown_chroot returned True on a mounted base path, it has
    scanned once and the mount table is the one it found less the
    configured mountpoints and the scanned paths: none of them is mounted
    any more and no other path was mounted or unmounted. *)
Theorem teardown_chroot_leaves_clean (w w' : W) t :
  teardown_chroot self w = (Ret true, w', t) ->
  mounted base w = true ->
  exists strays,
    sweeps t = [(base, strays)] /\
    (forall p, In p (targets self) -> mounted p w' = false) /\
    (forall p, In p strays -> mounted p w' = false) /\
    (forall q, mounted q w' =
               (mounted q w && negb (configured self q)
                && negb (existsb (String.eqb q) strays))%bool).
Proof.
  intros H Hm. destruct (teardown_success_table _ H Hm) as (Hs & Htab).
  eexists. split; [exact Hs|]. split; [|split; [|exact Htab]].
  - intros p Hp. rewrite Htab. apply existsb_eqb_In in Hp.
    unfold configured. rewrite Hp. now rewrite andb_false_r.
  - intros p Hp. rewrite Htab. apply existsb_eqb_In in Hp.
    rewrite Hp. now rewrite andb_false_r.
Qed.

(** X12.  Enter then Exit is a round trip on the mount table.  When no configured
    mountpoint is mounted before configure_chroot, configure_chroot returns
    True, the block leaves the table as it is and teardown_chroot returns
    True on the mounted base path, the mount table is back to what it was
    before configure_chroot, less the paths the sweep scanned. *)
Theorem enter_exit_restores_mount_table (w w1 wb w2 : W) tr1 tr2 :
  (forall p, In p (targets self) -> mounted p w = false) ->
  configure_chroot self w = (Ret true, w1, tr1) ->
  (forall q, mounted q wb = mounted q w1) ->
  mounted base wb = true ->
  teardown_chroot self wb = (Ret true, w2, tr2) ->
  exists strays,
    sweeps tr2 = [(base, strays)] /\
    (forall q, mounted q w2 =
               (mounted q w && negb (existsb (String.eqb q) strays))%bool) /\
    (strays = [] -> forall q, mounted q w2 = mounted q w).
Proof.
  intros Hfresh Hc Hbody Hb Ht.
  destruct (teardown_success_table _ Ht Hb) as (Hs & Htab).
  eexists. split; [exact Hs|].
  assert (Hq : forall q, mounted q w2 =
             (mounted q w && negb (existsb (String.eqb q)
                (lifo_mounts base
                   (snd (fst (for_each (teardown_mount self)
                                (rev (chroot_mounts self)) None
                                (after_prologue self wb)))))))%bool).
  { intros q. rewrite Htab, Hbody, (configure_success_table _ Hc).
    destruct (configured self q) eqn:Ec; simpl.
    - apply existsb_eqb_In in Ec. rewrite (Hfresh q Ec). reflexivity.
    - now rewrite andb_true_r. }
  split; [exact Hq|].
  intros Hnil q. rewrite Hq, Hnil. simpl. now rewrite andb_true_r.
Qed.

End Postconditions.

(** ** provision on any host *)

Section Provision.

Context {W : Type} {OS : Linux W}.
Variable self : Plugin.

Notation "'base'" := (self_mountpoint self).
Notation "'enabled'" := (short_circuit_sbin_service self).
Notation "'pkg'" := (package_arg self).
Notation "'sc_ok'" :=
  (if short_circuit_sbin_service self
   then [EShortCircuit "/sbin/service" true] else []).

(** The five ways through provision, with the trace of each. *)
Lemma provision_cases (w w' : W) o t :
  provision self w = (o, w', t) ->
  exists body,
    t = EChrootEnter base :: body ++ [EChrootExit] /\
    ((enabled = true /\
      body = [EShortCircuit "/sbin/service" false] /\
      o = Raise (ProvisionException "Unable to short circuit /sbin/service"))
     \/
     (exists rc,
        success rc = false /\
        body = sc_ok ++ [EYumCleanMetadata rc] /\
        o = Raise (ProvisionException
                     ("yum clean metadata failed: " ++ std_err rc)))
     \/
     (exists rc ri,
        success rc = true /\ success ri = false /\
        body = sc_ok ++ [EYumCleanMetadata rc; EYumInstall pkg ri] /\
        o = Raise (ProvisionException
                     ("Installation of " ++ pkg ++ " failed: " ++ std_err ri)))
     \/
     (exists rc ri,
        enabled = true /\ success rc = true /\ success ri = true /\
        body = sc_ok ++ [EYumCleanMetadata rc; EYumInstall pkg ri;
                         ERewire "/sbin/service" false] /\
        o = Raise (ProvisionException "Unable to rewire /sbin/service"))
     \/
     (exists rc ri,
        success rc = true /\ success ri = true /\
        body = sc_ok ++ [EYumCleanMetadata rc; EYumInstall pkg ri]
               ++ (if enabled then [ERewire "/sbin/service" true] else []) /\
        o = Ret tt)).
Proof.
  intros H.
  unfold provision, with_, provision_body, bind, call_chroot_enter,
    call_chroot_exit, call_short_circuit, call_yum_clean_metadata,
    call_yum_install, call_rewire, raise, ret in H.
  destruct enabled.
  - destruct (short_circuit "/sbin/service" (chroot_enter base w)) as [[|] w2];
      simpl in H.
    + destruct (yum_clean_metadata w2) as [rc w3]. simpl in H.
      destruct (success rc) eqn:Ec; simpl in H.
      * destruct (yum_install pkg w3) as [ri w4]. simpl in H.
        destruct (success ri) eqn:Ei; simpl in H.
        -- destruct (rewire "/sbin/service" w4) as [[|] w5]; simpl in H;
             injection H as <- <- <-.
           ++ exists [EShortCircuit "/sbin/service" true; EYumCleanMetadata rc;
                      EYumInstall pkg ri; ERewire "/sbin/service" true].
              split; [reflexivity|]. do 4 right. exists rc, ri. auto.
           ++ exists [EShortCircuit "/sbin/service" true; EYumCleanMetadata rc;
                      EYumInstall pkg ri; ERewire "/sbin/service" false].
              split; [reflexivity|]. do 3 right. left. exists rc, ri. auto.
        -- injection H as <- <- <-.
           exists [EShortCircuit "/sbin/service" true; EYumCleanMetadata rc;
                   EYumInstall pkg ri].
           split; [reflexivity|]. do 2 right. left. exists rc, ri. auto.
      * injection H as <- <- <-.
        exists [EShortCircuit "/sbin/service" true; EYumCleanMetadata rc].
        split; [reflexivity|]. right. left. exists rc. auto.
    + injection H as <- <- <-. exists [EShortCircuit "/sbin/service" false].
      split; [reflexivity|]. left. auto.
  - simpl in H.
    destruct (yum_clean_metadata (chroot_enter base w)) as [rc w3]. simpl in H.
    destruct (success rc) eqn:Ec; simpl in H.
    + destruct (yum_install pkg w3) as [ri w4]. simpl in H.
      destruct (success ri) eqn:Ei; simpl in H.
      * injection H as <- <- <-.
        exists [EYumCleanMetadata rc; EYumInstall pkg ri].
        split; [reflexivity|]. do 4 right. exists rc, ri. auto.
      * injection H as <- <- <-.
        exists [EYumCleanMetadata rc; EYumInstall pkg ri].
        split; [reflexivity|]. do 2 right. left. exists rc, ri. auto.
    + injection H as <- <- <-. exists [EYumCleanMetadata rc].
      split; [reflexivity|]. right. left. exists rc. auto.
Qed.

Ltac provision_by_cases H :=
  apply provision_cases in H;
  destruct H as
    (body & -> &
     [(En & -> & ->) |
      [(rc & Hc & -> & ->) |
       [(rc & ri & Hc & Hi & -> & ->) |
        [(rc & ri & En & Hc & Hi & -> & ->) |
         (rc & ri & Hc & Hi & -> & ->)]]]]);
  try rewrite En in *;
  destruct (short_circuit_sbin_service self) eqn:Enabled;
  try discriminate.

Ltac inv_Forall :=
  repeat match goal with
         | F : Forall _ (_ :: _) |- _ => inversion F; clear F; subst
         end;
  simpl in *.

(** X14.  provision enters the chroot first and leaves it last on every way out,
    also when it raises, and does neither in between. *)
Theorem provision_always_leaves_chroot (w w' : W) o t :
  provision self w = (o, w', t) ->
  chroot_events t = [EChrootEnter base; EChrootExit] /\
  exists body, t = EChrootEnter base :: body ++ [EChrootExit].
Proof.
  intros H. provision_by_cases H; split; solve [reflexivity | eauto].
Qed.

(** X15.  provision returns exactly when every command it ran succeeded; it has
    then cleaned the yum metadata once, installed the package once, and,
    when the short circuit is configured, short circuited /sbin/service
    before and rewired it after. *)
Theorem provision_returns_iff_all_succeeded (w w' : W) o t :
  provision self w = (o, w', t) ->
  (o = Ret tt <->
   Forall (fun c => snd c = true) (short_circuits t) /\
   Forall (fun r => success r = true) (yum_cleans t) /\
   Forall (fun c => success (snd c) = true) (yum_installs t) /\
   Forall (fun c => snd c = true) (rewires t)) /\
  (o = Ret tt ->
   exists rc ri,
     t = EChrootEnter base ::
         (if enabled then [EShortCircuit "/sbin/service" true] else [])
         ++ [EYumCleanMetadata rc; EYumInstall pkg ri]
         ++ (if enabled then [ERewire "/sbin/service" true] else [])
         ++ [EChrootExit]).
Proof.
  intros H. provision_by_cases H;
    unfold short_circuits, yum_cleans, yum_installs, rewires; simpl;
    (split; [split|]);
    try discriminate;
    try (intros (F1 & F2 & F3 & F4); exfalso; inv_Forall; congruence);
    try (intros _; repeat split; repeat constructor; assumption);
    try (intros _; exists rc, ri; reflexivity);
    try reflexivity.
Qed.

(** X16.  provision runs each command only after the one before it succeeded:
    yum is not touched unless the configured short circuit succeeded, the
    package is not installed unless the metadata were cleaned, /sbin/service
    is not rewired unless the short circuit is configured and the
    installation succeeded.  Without the short circuit configured it neither
    short circuits nor rewires. *)
Theorem provision_steps_in_order (w w' : W) o t :
  provision self w = (o, w', t) ->
  (yum_cleans t <> [] ->
   short_circuits t = if enabled then [("/sbin/service", true)] else []) /\
  (yum_installs t <> [] ->
   exists rc, yum_cleans t = [rc] /\ success rc = true) /\
  (rewires t <> [] ->
   enabled = true /\
   exists ri, yum_installs t = [(pkg, ri)] /\ success ri = true) /\
  (enabled = false -> short_circuits t = [] /\ rewires t = []).
Proof.
  intros H. provision_by_cases H;
    unfold short_circuits, yum_cleans, yum_installs, rewires; simpl;
    repeat split; intros; try congruence; try discriminate; eauto.
Qed.

End Provision.

(** ** _short_circuit on any host *)

Section ShortCircuitFiles.

Context {W : Type} {SC : ShortCircuitTo W}.

Lemma short_circuit_file_run dst f u (w : W) :
  short_circuit_file dst f u w =
  if fst (short_circuit_to f dst w)
  then (Ret (inl tt), snd (short_circuit_to f dst w), [EShortCircuit f true])
  else (Raise (ProvisionException "Unable to short circuit {0} to {1}"),
        snd (short_circuit_to f dst w), [EShortCircuit f false]).
Proof.
  unfold short_circuit_file, bind, call_short_circuit_to, raise, ret.
  destruct (short_circuit_to f dst w) as [[|] w1]; reflexivity.
Qed.

(** The loop of _short_circuit over [l]: only short_circuit calls, on the
    files of [l] in order, up to the first one that fails. *)
Lemma short_circuit_loop_shape dst l : forall (w w' : W) o t,
  for_each (short_circuit_file dst) l tt w = (o, w', t) ->
  t = map (fun c => EShortCircuit (fst c) (snd c)) (short_circuits t) /\
  map fst (short_circuits t) = firstn (length (short_circuits t)) l /\
  ((o = Ret (inl tt) /\ short_circuits t = map (fun f => (f, true)) l)
   \/
   (o = Raise (ProvisionException "Unable to short circuit {0} to {1}") /\
    exists done f,
      short_circuits t = map (fun f => (f, true)) done ++ [(f, false)])).
Proof.
  induction l as [|f l IH]; intros w w' o t H.
  - rewrite for_each_nil in H. inversion H; subst. auto.
  - rewrite for_each_cons, short_circuit_file_run in H.
    destruct (fst (short_circuit_to f dst w)).
    + destruct (for_each _ l _ _) as [[o2 w2] t2] eqn:E2.
      inversion H; subst; clear H.
      apply IH in E2. destruct E2 as (Ht & Hv & Hcase).
      unfold short_circuits in *. simpl.
      split; [now rewrite <- Ht|]. split; [now rewrite Hv at 1|].
      destruct Hcase as [(-> & Hs) | (-> & done & g & Hs)].
      * left. now rewrite Hs.
      * right. split; [reflexivity|]. exists (f :: done), g. now rewrite Hs.
    + inversion H; subst; clear H. unfold short_circuits. simpl.
      split; [reflexivity|]. split; [reflexivity|].
      right. split; [reflexivity|]. exists [], f. reflexivity.
Qed.

(** X18.  _short_circuit short circuits the configured files in the order of the
    list, with the configured stand-in or /bin/true, and makes no other
    call.  It returns when every file was short circuited; at the first
    file that fails it raises ProvisionException and leaves the files after
    it alone.  The text of that exception is the template as written, with
    its placeholders, since the source never fills it in.  A missing list
    is an empty list. *)
Theorem short_circuit_files_stop_at_first_failure
        (files : option (list path)) (dst : option path) (w w' : W) o t :
  _short_circuit files dst w = (o, w', t) ->
  t = map (fun c => EShortCircuit (fst c) (snd c)) (short_circuits t) /\
  ((o = Ret tt /\
    short_circuits t =
    map (fun f => (f, true)) (match files with Some l => l | None => [] end))
   \/
   (o = Raise (ProvisionException "Unable to short circuit {0} to {1}") /\
    exists done f rest,
      match files with Some l => l | None => [] end = done ++ f :: rest /\
      short_circuits t = map (fun f => (f, true)) done ++ [(f, false)])) /\
  (files = None -> o = Ret tt /\ w' = w /\ t = []) /\
  _short_circuit files None w = _short_circuit files (Some "/bin/true") w.
Proof.
  intros H. unfold _short_circuit, bind in H.
  destruct (for_each _ _ tt w) as [[o1 w1] t1] eqn:E1.
  assert (Hnone : files = None -> o = Ret tt /\ w' = w /\ t = []).
  { intros ->. rewrite for_each_nil in E1. inversion E1; subst.
    simpl in H. now inversion H. }
  apply short_circuit_loop_shape in E1.
  destruct E1 as (Ht & Hv & [(-> & Hs) | (-> & done & f & Hs)]).
  - simpl in H. injection H as <- <- <-. rewrite app_nil_r in *.
    split; [exact Ht|]. split; [left; auto|]. split; [exact Hnone | reflexivity].
  - injection H as <- <- <-.
    split; [exact Ht|]. split; [|split; [exact Hnone | reflexivity]].
    right. split; [reflexivity|].
    rewrite Hs in Hv. rewrite map_app, map_map, length_app, length_map in Hv.
    simpl in Hv. rewrite map_id in Hv.
    exists done, f,
      (skipn (length done + 1) (match files with Some l => l | None => [] end)).
    split; [|exact Hs].
    rewrite <- (firstn_skipn (length done + 1)
                  (match files with Some l => l | None => [] end)) at 1.
    rewrite <- Hv, <- app_assoc. reflexivity.
Qed.

End ShortCircuitFiles.

(** ** The further properties at work on the host model *)

Lemma configure_chroot_stays_under_volume_witness :
  Forall (fun c => inside "/mnt/vol" (mountpoint (fst c)))
    (mounts (snd (configure_chroot (__call__ (Host.plugin Host.proc_dev) "/mnt/vol")
                    Host.w0))) /\
  Forall (fun c => c = ("/etc/resolv.conf", "/mnt/vol/etc/"))
    (copies (snd (configure_chroot (__call__ (Host.plugin Host.proc_dev) "/mnt/vol")
                    Host.w0))) /\
  mount_targets (snd (configure_chroot (__call__ (Host.plugin Host.proc_dev) "/mnt/vol")
                        Host.w0)) = ["/mnt/vol/proc"; "/mnt/vol/dev"] /\
  copies (snd (configure_chroot (__call__ (Host.plugin Host.proc_dev) "/mnt/vol")
                 Host.w0)) = [("/etc/resolv.conf", "/mnt/vol/etc/")].
Proof.
  destruct (configure_chroot_stays_under_volume (Host.plugin Host.proc_dev)
              "/mnt/vol" Host.w0 (triple_eta _)) as (_ & _ & Hm & Hc & _).
  split; [exact Hm|]. split; [exact Hc|]. split; reflexivity.
Defined.

Lemma teardown_chroot_stays_under_volume_witness :
  Forall (fun v => fst v = "/mnt/vol" \/ inside "/mnt/vol" (fst v))
    (visits (snd (teardown_chroot (__call__ (Host.plugin Host.proc_dev) "/mnt/vol")
                    w_scenario_b))) /\
  Forall (fun p => p = "/mnt/vol/etc/resolv.conf")
    (removals (snd (teardown_chroot (__call__ (Host.plugin Host.proc_dev) "/mnt/vol")
                      w_scenario_b))) /\
  unmount_targets (snd (teardown_chroot (__call__ (Host.plugin Host.proc_dev) "/mnt/vol")
                          w_scenario_b)) =
  ["/mnt/vol/dev"; "/mnt/vol/proc"; "/mnt/vol/mnt/extra"] /\
  removals (snd (teardown_chroot (__call__ (Host.plugin Host.proc_dev) "/mnt/vol")
                   w_scenario_b)) = ["/mnt/vol/etc/resolv.conf"].
Proof.
  destruct (teardown_chroot_stays_under_volume (Host.plugin Host.proc_dev)
              "/mnt/vol" w_scenario_b (triple_eta _)) as (Hv & Hr & _).
  split; [exact Hv|]. split; [exact Hr|]. split; reflexivity.
Defined.

Lemma teardown_chroot_in_reverse_order_witness :
  map fst (tl (visits (snd (teardown_chroot (Host.plugin Host.proc_dev) w_scenario_b)))) =
  ["/mnt/vol/dev"; "/mnt/vol/proc"] /\
  sweeps (snd (teardown_chroot (Host.plugin Host.proc_dev) w_scenario_b)) =
  [("/mnt/vol", ["/mnt/vol/mnt/extra"])].
Proof.
  destruct (teardown_chroot_in_reverse_order (Host.plugin Host.proc_dev)
              w_scenario_b (triple_eta _)) as (Hv & _).
  split; [rewrite Hv; reflexivity | reflexivity].
Defined.

Lemma teardown_chroot_only_unmounts_witness :
  mounts (snd (teardown_chroot (Host.plugin Host.proc_dev) w_scenario_b)) = [] /\
  copies (snd (teardown_chroot (Host.plugin Host.proc_dev) w_scenario_b)) = [] /\
  removals (snd (teardown_chroot (Host.plugin Host.proc_dev) w_scenario_b)) =
  ["/mnt/vol/etc/resolv.conf"].
Proof.
  destruct (teardown_chroot_only_unmounts (Host.plugin Host.proc_dev)
              w_scenario_b (triple_eta _)) as (_ & Hm & Hc & _).
  split; [exact Hm|]. split; [exact Hc | reflexivity].
Defined.

Lemma teardown_chroot_result_witness :
  success (busy_mount "/mnt/vol" Host.w_busy) = true /\
  fst (fst (teardown_chroot (Host.plugin Host.proc_dev) Host.w_busy)) = Ret false /\
  fst (fst (teardown_chroot (Host.plugin Host.proc_dev) Host.w_binfmt)) = Ret false /\
  (success (busy_mount "/mnt/vol" Host.w_binfmt) = true \/
   exists t1 p r msg,
     snd (teardown_chroot (Host.plugin Host.proc_dev) Host.w_binfmt) =
     t1 ++ [EUnmount p r; ELog ERROR msg] /\ success r = false).
Proof.
  assert (Hb : success (busy_mount (self_mountpoint (Host.plugin Host.proc_dev))
                                   Host.w_busy) = true) by reflexivity.
  destruct (teardown_chroot_result (Host.plugin Host.proc_dev)
              Host.w_binfmt (triple_eta _)) as (_ & Hfalse & _).
  destruct (teardown_chroot_result (Host.plugin Host.proc_dev)
              Host.w_busy (triple_eta _)) as (_ & _ & Hbusy & _).
  split; [exact Hb|]. split; [exact (Hbusy Hb)|].
  split; [reflexivity | exact (Hfalse eq_refl)].
Defined.

Lemma exit_never_suppresses_witness :
  success (busy_mount "/mnt/vol" Host.w_busy) = true /\
  fst (fst (__exit__ (Host.plugin Host.proc_dev) Host.w_busy)) =
  Raise (VolumeException "Error tearing down chroot") /\
  fst (fst (__exit__ (Host.plugin Host.proc_dev) Host.w_entered)) = Ret false /\
  teardown_chroot (Host.plugin Host.proc_dev) Host.w_entered =
  (Ret true, snd (fst (__exit__ (Host.plugin Host.proc_dev) Host.w_entered)),
   snd (__exit__ (Host.plugin Host.proc_dev) Host.w_entered)).
Proof.
  assert (Hb : success (busy_mount (self_mountpoint (Host.plugin Host.proc_dev))
                                   Host.w_busy) = true) by reflexivity.
  assert (Ho : fst (fst (__exit__ (Host.plugin Host.proc_dev) Host.w_entered)) =
               Ret false) by reflexivity.
  destruct (exit_never_suppresses (Host.plugin Host.proc_dev)
              Host.w_busy (triple_eta _)) as (_ & _ & _ & _ & _ & _ & Hbusy & _).
  destruct (exit_never_suppresses (Host.plugin Host.proc_dev)
              Host.w_entered (triple_eta _)) as (_ & Hiff & _).
  split; [exact Hb|]. split; [exact (Hbusy Hb)|].
  split; [exact Ho | exact (proj1 Hiff Ho)].
Defined.

Lemma enter_raises_on_failed_mount_witness :
  fst (fst (__enter__ (Host.plugin Host.proc_dev) Host.w_no_devtmpfs)) =
  Raise (VolumeException "Error configuring chroot") /\
  copies (snd (__enter__ (Host.plugin Host.proc_dev) Host.w_no_devtmpfs)) = [] /\
  fst (fst (__enter__ (Host.plugin Host.proc_dev) Host.w0)) = Ret tt /\
  configure_chroot (Host.plugin Host.proc_dev) Host.w0 =
  (Ret true, snd (fst (__enter__ (Host.plugin Host.proc_dev) Host.w0)),
   snd (__enter__ (Host.plugin Host.proc_dev) Host.w0)).
Proof.
  assert (Ht : snd (__enter__ (Host.plugin Host.proc_dev) Host.w_no_devtmpfs) =
               [EMounted "/mnt/vol/proc" false;
                EMount (mkMountSpec "proc" "proc" "/mnt/vol/proc" "") Host.ok;
                EMounted "/mnt/vol/dev" false]
               ++ EMount (mkMountSpec "devtmpfs" "devtmpfs" "/mnt/vol/dev" "")
                    (Host.failed "mount: unknown filesystem type devtmpfs")
               :: [ELog CRITICAL
                     "Unable to configure chroot: mount: unknown filesystem type devtmpfs"])
    by reflexivity.
  assert (Ho : fst (fst (__enter__ (Host.plugin Host.proc_dev) Host.w0)) = Ret tt)
    by reflexivity.
  destruct (enter_raises_on_failed_mount (Host.plugin Host.proc_dev)
              Host.w_no_devtmpfs (triple_eta _)) as (_ & _ & _ & _ & _ & Hfail).
  destruct (enter_raises_on_failed_mount (Host.plugin Host.proc_dev)
              Host.w0 (triple_eta _)) as (Hiff & _).
  destruct (Hfail _ _ _ _ Ht eq_refl) as (Hraise & _ & Hc).
  split; [exact Hraise|]. split; [exact Hc|].
  split; [exact Ho | exact (proj1 Hiff Ho)].
Defined.

Lemma configure_chroot_mounts_configured_witness :
  mounted "/mnt/vol/proc" Host.w_entered = true /\
  mounted "/mnt/vol/dev" Host.w_entered = true /\
  forall q, mounted q Host.w_entered =
            (configured (Host.plugin Host.proc_dev) q || mounted q Host.w0)%bool.
Proof.
  assert (E : configure_chroot (Host.plugin Host.proc_dev) Host.w0 =
              (Ret true, Host.w_entered,
               snd (configure_chroot (Host.plugin Host.proc_dev) Host.w0)))
    by reflexivity.
  destruct (configure_chroot_mounts_configured (Host.plugin Host.proc_dev) Host.w0 E)
    as (Hall & Htab).
  split; [apply Hall; simpl; auto|]. split; [apply Hall; simpl; auto | exact Htab].
Defined.

Lemma configure_chroot_idempotent_witness :
  exists w2 t2,
    configure_chroot (Host.plugin Host.proc_dev) Host.w_entered = (Ret true, w2, t2) /\
    mounts t2 = [].
Proof.
  assert (E : configure_chroot (Host.plugin Host.proc_dev) Host.w0 =
              (Ret true, Host.w_entered,
               snd (configure_chroot (Host.plugin Host.proc_dev) Host.w0)))
    by reflexivity.
  destruct (configure_chroot_idempotent (Host.plugin Host.proc_dev) Host.w0 E)
    as (w2 & t2 & E2 & Hm & _).
  exists w2, t2. split; [exact E2 | exact Hm].
Defined.

Lemma teardown_chroot_leaves_clean_witness :
  exists strays,
    sweeps (snd (teardown_chroot (Host.plugin Host.proc_dev) w_scenario_b)) =
    [("/mnt/vol", strays)] /\
    forall p, In p strays ->
              mounted p (snd (fst (teardown_chroot (Host.plugin Host.proc_dev)
                                     w_scenario_b))) = false.
Proof.
  assert (E : teardown_chroot (Host.plugin Host.proc_dev) w_scenario_b =
              (Ret true,
               snd (fst (teardown_chroot (Host.plugin Host.proc_dev) w_scenario_b)),
               snd (teardown_chroot (Host.plugin Host.proc_dev) w_scenario_b)))
    by reflexivity.
  assert (Hb : mounted (self_mountpoint (Host.plugin Host.proc_dev)) w_scenario_b = true)
    by reflexivity.
  destruct (teardown_chroot_leaves_clean (Host.plugin Host.proc_dev) w_scenario_b E Hb)
    as (strays & Hs & _ & Hgone & _).
  exists strays. split; [exact Hs | exact Hgone].
Defined.

Lemma enter_exit_restores_mount_table_witness :
  mounted "/mnt/vol/proc"
    (snd (fst (teardown_chroot (Host.plugin Host.proc_dev) Host.w_entered))) =
  mounted "/mnt/vol/proc" Host.w0 /\
  (forall q, mounted q (snd (fst (teardown_chroot (Host.plugin Host.proc_dev)
                                    Host.w_entered))) =
             mounted q Host.w0).
Proof.
  cut (forall q, mounted q (snd (fst (teardown_chroot (Host.plugin Host.proc_dev)
                                        Host.w_entered))) =
                 mounted q Host.w0); [intros Hq; split; [apply Hq | exact Hq]|].
  assert (Hfresh : forall p, In p (targets (Host.plugin Host.proc_dev)) ->
                             mounted p Host.w0 = false).
  { intros p [<-|[<-|[]]]; reflexivity. }
  assert (Ec : configure_chroot (Host.plugin Host.proc_dev) Host.w0 =
               (Ret true, Host.w_entered,
                snd (configure_chroot (Host.plugin Host.proc_dev) Host.w0)))
    by reflexivity.
  assert (Hbody : forall q, mounted q Host.w_entered = mounted q Host.w_entered)
    by reflexivity.
  assert (Hb : mounted (self_mountpoint (Host.plugin Host.proc_dev)) Host.w_entered = true)
    by reflexivity.
  assert (Et : teardown_chroot (Host.plugin Host.proc_dev) Host.w_entered =
               (Ret true,
                snd (fst (teardown_chroot (Host.plugin Host.proc_dev) Host.w_entered)),
                snd (teardown_chroot (Host.plugin Host.proc_dev) Host.w_entered)))
    by reflexivity.
  destruct (enter_exit_restores_mount_table (Host.plugin Host.proc_dev)
              Host.w0 Host.w_entered Hfresh Ec Hbody Hb Et)
    as (strays & Hs & _ & Hback).
  apply Hback. inversion Hs. reflexivity.
Defined.

Lemma provision_always_leaves_chroot_witness :
  chroot_events (snd (provision (Host.plugin Host.proc_dev) Host.w_no_package)) =
  [EChrootEnter "/mnt/vol"; EChrootExit].
Proof.
  exact (proj1 (provision_always_leaves_chroot (Host.plugin Host.proc_dev)
                  Host.w_no_package (triple_eta _))).
Defined.

Lemma provision_returns_iff_all_succeeded_witness :
  fst (fst (provision (Host.plugin Host.proc_dev) Host.w0)) = Ret tt /\
  exists rc ri,
    snd (provision (Host.plugin Host.proc_dev) Host.w0) =
    [EChrootEnter "/mnt/vol"; EShortCircuit "/sbin/service" true;
     EYumCleanMetadata rc; EYumInstall "httpd" ri;
     ERewire "/sbin/service" true; EChrootExit].
Proof.
  destruct (provision_returns_iff_all_succeeded (Host.plugin Host.proc_dev)
              Host.w0 (triple_eta _)) as (_ & Hret).
  split; [reflexivity | exact (Hret eq_refl)].
Defined.

Lemma provision_steps_in_order_witness :
  exists rc,
    yum_cleans (snd (provision (Host.plugin Host.proc_dev) Host.w_no_package)) = [rc] /\
    success rc = true.
Proof.
  destruct (provision_steps_in_order (Host.plugin Host.proc_dev)
              Host.w_no_package (triple_eta _)) as (_ & Hinst & _).
  apply Hinst. discriminate.
Defined.

Lemma short_circuit_files_witness :
  fst (fst (_short_circuit (Some ["/sbin/service"; "/sbin/initctl"; "/sbin/start"])
              None Host.w0)) =
  Raise (ProvisionException "Unable to short circuit {0} to {1}") /\
  short_circuits (snd (_short_circuit
                         (Some ["/sbin/service"; "/sbin/initctl"; "/sbin/start"])
                         None Host.w0)) =
  [("/sbin/service", true); ("/sbin/initctl", false)] /\
  _short_circuit None None Host.w0 = (Ret tt, Host.w0, []).
Proof.
  destruct (short_circuit_files_stop_at_first_failure
              (Some ["/sbin/service"; "/sbin/initctl"; "/sbin/start"]) None
              Host.w0 (triple_eta _)) as (_ & _ & _ & _).
  destruct (short_circuit_files_stop_at_first_failure None None
              Host.w0 (triple_eta _)) as (_ & _ & Hnone & _).
  destruct (Hnone eq_refl) as (Ho & Hw & Ht).
  split; [reflexivity|]. split; [reflexivity|].
  rewrite (triple_eta (_short_circuit None None Host.w0)), Ho, Hw, Ht. reflexivity.
Defined.

Lemma stray_sweep_after_configured_witness :
  (forall p, In p (targets (Host.plugin Host.proc_dev)) ->
             ~ In p ["/mnt/vol/mnt/extra"]) /\
  configured (Host.plugin Host.proc_dev) "/mnt/vol/mnt/extra" = false.
Proof.
  assert (Ht : snd (teardown_chroot (Host.plugin Host.proc_dev) w_scenario_b) =
               [EBusyMount "/mnt/vol" (Host.failed "");
                EMounted "/mnt/vol" true;
                EExists "/mnt/vol/etc/resolv.conf" true;
                ERemove "/mnt/vol/etc/resolv.conf";
                EMounted "/mnt/vol/dev" true;
                EUnmount "/mnt/vol/dev" Host.ok;
                EMounted "/mnt/vol/proc" true;
                EUnmount "/mnt/vol/proc" Host.ok]
               ++ ELifoMounts "/mnt/vol" ["/mnt/vol/mnt/extra"]
               :: [EUnmount "/mnt/vol/mnt/extra" Host.ok])
    by reflexivity.
  destruct (stray_sweep_after_configured (Host.plugin Host.proc_dev) w_scenario_b
              _ _ _ _ (triple_eta _) Ht)
    as (_ & _ & _ & Hnot & _ & Hswept).
  split; [exact Hnot|]. apply Hswept. now left.
Defined.
